(** * The Catcher environment of [x/environment.py]

    A shallow embedding of the [Catcher] class and the properties of its
    transition, reward, termination and rendering functions.

    Conventions of the model.
    - Python integers and the integer cells of the state array are [Z]
      (all statements concern values far from the 64-bit limits of numpy).
    - The canvas cells, which numpy stores as the floats 0.0 and 1.0, are the
      integers 0 and 1.
    - An instance is a record of its attributes; an attribute that
      [__init__] may leave unassigned is an [option].
    - A method is a function from the instance to a result (a value or a
      raised exception) and the instance after the call.
    - [np.random.randint] is the list of its equally likely outcomes, and
      the one-element arrays it returns are the integers they hold. *)

From Stdlib Require Import ZArith Lia String.
From stdpp Require Import base list list_numbers pretty.

Open Scope Z_scope.

(** ** Exceptions and method results *)

Inductive exn : Type :=
| ValueError
| IndexError
| AttributeError
| UnboundLocalError.

Inductive result (A : Type) : Type :=
| Ok (a : A)
| Raise (e : exn).

Arguments Ok {A} a.
Arguments Raise {A} e.

(** ** Instances *)

(** A row of the state array: (fruit_row, fruit_col, basket). *)
Definition row : Type := (Z * Z * Z)%type.

(** [_state] is an array of shape (1, 3): a list of rows.
    [output_shape] and [_state] are absent until assigned. *)
Record Catcher : Type := mkCatcher {
  grid_size : Z;
  output_type : string;
  output_shape : option (list Z);
  _state : option (list row)
}.

(** A canvas is a list of rows of cells. *)
Abbreviation canvas := (list (list Z)).

(** A reshaped array: its shape and its cells in row-major order. *)
Record ndarray : Type := mkArray {
  shape : list Z;
  data : list Z
}.

Inductive observation : Type :=
| ObsPixels (a : ndarray)
| ObsPosition (r : row).

(** ** The method monad: state passing with exceptions *)

Definition M (A : Type) : Type := Catcher -> result A * Catcher.

Definition ret {A} (a : A) : M A := fun self => (Ok a, self).

Definition raise {A} (e : exn) : M A := fun self => (Raise e, self).

Definition bind {A B} (m : M A) (k : A -> M B) : M B :=
  fun self =>
    match m self with
    | (Ok a, self') => k a self'
    | (Raise e, self') => (Raise e, self')
    end.

Notation "x <- m ;; k" := (bind m (fun x => k))
  (at level 100, m at next level, right associativity).
Notation "m ;;; k" := (bind m (fun _ => k))
  (at level 100, right associativity).

(** Attribute reads and the one attribute write of the methods.  The class
    never writes into the state array in place: [_update_state] and [reset]
    bind [_state] to a fresh array. *)
Definition get_grid_size : M Z := fun self => (Ok (grid_size self), self).

Definition get_output_type : M string := fun self => (Ok (output_type self), self).

Definition get_output_shape : M (list Z) :=
  fun self =>
    match output_shape self with
    | Some s => (Ok s, self)
    | None => (Raise AttributeError, self)
    end.

Definition set_state (out : list row) : M unit :=
  fun self =>
    (Ok tt, mkCatcher (grid_size self) (output_type self) (output_shape self) (Some out)).

(** The [state] property returns [self._state]. *)
Definition state : M (list row) :=
  fun self =>
    match _state self with
    | Some s => (Ok s, self)
    | None => (Raise AttributeError, self)
    end.

(** ** The numpy operations the class uses *)

(** [a[0]] on the first axis. *)
Definition first_row (a : list row) : M row :=
  match a with
  | r :: _ => ret r
  | [] => raise IndexError
  end.

(** [np.asarray([f0, f1, b])[np.newaxis]]. *)
Definition newaxis (r : row) : list row := [r].

(** [np.zeros((n, m))]. *)
Definition np_zeros (n m : Z) : M canvas :=
  if (n <? 0) || (m <? 0) then raise ValueError
  else ret (replicate (Z.to_nat n) (replicate (Z.to_nat m) 0)).

(** An integer index into an axis of length [n]: negative indices count from
    the end, anything outside [-n, n) is an IndexError. *)
Definition norm_index (n i : Z) : option nat :=
  if (0 <=? i) && (i <? n) then Some (Z.to_nat i)
  else if (- n <=? i) && (i <? 0) then Some (Z.to_nat (i + n))
  else None.

(** A slice bound on an axis of length [n]: negative bounds count from the
    end, and the result is clipped to [0, n]. *)
Definition clip_bound (n x : Z) : Z :=
  if x <? 0 then Z.max (x + n) 0 else Z.min x n.

(** [c[i, j] = v]. *)
Definition setitem (c : canvas) (i j : Z) (v : Z) : M canvas :=
  match norm_index (Z.of_nat (length c)) i with
  | None => raise IndexError
  | Some i' =>
      match c !! i' with
      | None => raise IndexError
      | Some r =>
          match norm_index (Z.of_nat (length r)) j with
          | None => raise IndexError
          | Some j' => ret (<[i' := <[j' := v]> r]> c)
          end
      end
  end.

(** [c[i, start:stop] = v]. *)
Definition setslice (c : canvas) (i start stop : Z) (v : Z) : M canvas :=
  match norm_index (Z.of_nat (length c)) i with
  | None => raise IndexError
  | Some i' =>
      match c !! i' with
      | None => raise IndexError
      | Some r =>
          let n := Z.of_nat (length r) in
          let lo := clip_bound n start in
          let hi := clip_bound n stop in
          ret (<[i' := list_inserts (Z.to_nat lo) (replicate (Z.to_nat (hi - lo)) v) r]> c)
      end
  end.

Definition product (l : list Z) : Z := foldr Z.mul 1 l.

(** [c.reshape(shp)] for a shape of non-negative dimensions (the class only
    ever passes such shapes). *)
Definition reshape (c : canvas) (shp : list Z) : M ndarray :=
  let cells := concat c in
  if forallb (fun d => 0 <=? d) shp && (product shp =? Z.of_nat (length cells))
  then ret (mkArray shp cells)
  else raise ValueError.

(** [np.random.randint(low, high)]: the discrete uniform distribution on the
    half-open interval [low, high), as the list of its equally likely
    outcomes; an empty interval is a ValueError. *)
Definition randint (low high : Z) : result (list Z) :=
  if low <? high then Ok (seqZ low (high - low)) else Raise ValueError.

(** ** The methods of [Catcher] *)

(** [_update_state]: the action becomes a signed step, the basket is
    clamped, the fruit falls one row.  The assertion on [out.shape] always
    holds ([out] has shape (1, 3)) and is left out. *)
Definition _update_state (action : Z) : M unit :=
  st <- state ;;
  let action := if action =? 0 then -1 else if action =? 1 then 0 else 1 in
  r <- first_row st ;;
  let '(f0, f1, basket) := r in
  g <- get_grid_size ;;
  let new_basket := Z.min (Z.max 1 (basket + action)) (g - 1) in
  let f0 := f0 + 1 in
  let out := newaxis (f0, f1, new_basket) in
  set_state out.

(** [_draw_state]: a canvas of zeros with the fruit's cell and the slice
    [basket-1 : basket+2] of the last row set to 1. *)
Definition _draw_state : M canvas :=
  g <- get_grid_size ;;
  st <- state ;;
  r <- first_row st ;;
  let '(s0, s1, s2) := r in
  c <- np_zeros g g ;;
  c <- setitem c s0 s1 1 ;;
  c <- setslice c (-1) (s2 - 1) (s2 + 2) 1 ;;
  ret c.

Definition reward : M Z :=
  st <- state ;;
  r <- first_row st ;;
  let '(fruit_row, fruit_col, basket) := r in
  g <- get_grid_size ;;
  if fruit_row =? g - 1 then
    if Z.abs (fruit_col - basket) <=? 1 then ret 1 else ret (-1)
  else ret 0.

Definition observe_image : M ndarray :=
  c <- _draw_state ;;
  g <- get_grid_size ;;
  reshape c [1; 1; g; g].

(** [observe]: two independent [if]s assign the local [out]; when neither
    fires, [return out] raises UnboundLocalError. *)
Definition observe : M observation :=
  ty <- get_output_type ;;
  out <- (if String.eqb ty "pixels" then
            c <- _draw_state ;;
            shp <- get_output_shape ;;
            a <- reshape c (1 :: shp) ;;
            ret (Some (ObsPixels a))
          else ret None) ;;
  ty <- get_output_type ;;
  out <- (if String.eqb ty "position" then
            st <- state ;;
            r <- first_row st ;;
            ret (Some (ObsPosition r))
          else ret out) ;;
  match out with
  | Some o => ret o
  | None => raise UnboundLocalError
  end.

Definition is_over : M bool :=
  st <- state ;;
  r <- first_row st ;;
  let '(s00, _, _) := r in
  g <- get_grid_size ;;
  if s00 =? g - 1 then ret true else ret false.

(** [update]: the transition, then reward and termination of the new
    state, then its observation (evaluated last, in the return tuple). *)
Definition update (action : Z) : M (observation * Z * bool) :=
  _update_state action ;;;
  rew <- reward ;;
  game_over <- is_over ;;
  o <- observe ;;
  ret (o, rew, game_over).

(** [reset] draws the fruit column, then the basket column, and replaces the
    state; the result lists the equally likely instances. *)
Definition reset (self : Catcher) : result (list Catcher) :=
  match randint 0 (grid_size self - 1) with
  | Raise e => Raise e
  | Ok ns =>
      match randint 1 (grid_size self - 2) with
      | Raise e => Raise e
      | Ok ms =>
          Ok (n ← ns; m ← ms; [snd (set_state (newaxis (0, n, m)) self)])
      end
  end.

(** [Catcher(grid_size, output_shape, output_type)]; [None] for
    [output_shape] is the default argument.  [self.output_shape] is assigned
    only under [if output_shape is None], and there only for the two known
    output types; then [reset] is called. *)
Definition __init__ (g : Z) (oshape : option (list Z)) (otype : string)
  : result (list Catcher) :=
  let derived :=
    match oshape with
    | None =>
        if String.eqb otype "pixels" then Some [g * g]
        else if String.eqb otype "position" then Some [3]
        else None
    | Some _ => None
    end in
  reset (mkCatcher g otype derived None).

(** The instance with attributes [g], [ty], [sh] whose state array holds the
    single row [r]. *)
Definition instance (g : Z) (ty : string) (sh : option (list Z)) (r : row) : Catcher :=
  mkCatcher g ty sh (Some (newaxis r)).

(** The cell of a canvas at integer coordinates, if the canvas has it. *)
Definition cell (c : canvas) (i j : Z) : option Z :=
  if (0 <=? i) && (0 <=? j)
  then line ← c !! Z.to_nat i; line !! Z.to_nat j
  else None.

(** Instances reachable through the public interface: construction, then any
    sequence of [reset] and [update] calls (an [update] that raises has
    still replaced the state). *)
Inductive reachable : Catcher -> Prop :=
| reach_init g oshape otype d self :
    __init__ g oshape otype = Ok d -> self ∈ d -> reachable self
| reach_reset self d self' :
    reachable self -> reset self = Ok d -> self' ∈ d -> reachable self'
| reach_update self action :
    reachable self -> reachable (snd (update action self)).

(** The fruit-row invariant of the data model. *)
Definition fruit_row_in_grid (self : Catcher) : bool :=
  match _state self with
  | Some [(f0, _, _)] => (0 <=? f0) && (f0 <=? grid_size self - 1)
  | _ => false
  end.

(** Instances reached in regular play: as [reachable], but [update] is
    only called while [is_over] is false. *)
Inductive in_play : Catcher -> Prop :=
| play_init g oshape otype d self :
    __init__ g oshape otype = Ok d -> self ∈ d -> in_play self
| play_reset self d self' :
    in_play self -> reset self = Ok d -> self' ∈ d -> in_play self'
| play_update self action :
    in_play self -> fst (is_over self) = Ok false ->
    in_play (snd (update action self)).

(** Counting the outcomes of a draw that satisfy a test: with equally
    likely outcomes, the probability of the test is this count over the
    length of the list. *)
Definition count (p : Catcher -> bool) (d : list Catcher) : nat :=
  length (List.filter p d).

Definition has_fruit_col (n : Z) (self : Catcher) : bool :=
  match _state self with
  | Some [(_, f1, _)] => f1 =? n
  | _ => false
  end.

Definition has_basket (m : Z) (self : Catcher) : bool :=
  match _state self with
  | Some [(_, _, b)] => b =? m
  | _ => false
  end.

(** A method that leaves the instance as it found it. *)
Definition reads_only {A} (m : M A) : Prop :=
  forall self, snd (m self) = self.

(** The canvas the rendering is meant to produce for the state row [r] on
    a grid of size [g]: 1 at the fruit's cell, 1 on the three cells of the
    bottom row centred at the basket column, 0 on every other cell of the
    grid (the fruit's cell may be one of the basket's). *)
Definition rendered_as_claimed (g : Z) (r : row) (c : canvas) : Prop :=
  let '(f0, f1, b) := r in
  cell c f0 f1 = Some 1 /\
  (forall j, b - 1 <= j <= b + 1 -> cell c (g - 1) j = Some 1) /\
  (forall i j, 0 <= i < g -> 0 <= j < g ->
     ~ (i = f0 /\ j = f1) -> ~ (i = g - 1 /\ b - 1 <= j <= b + 1) ->
     cell c i j = Some 0).

(** The [description] property: the grid size formatted into a fixed
    sentence ([str.format] prints an integer in decimal). *)
Definition description : M string :=
  g <- get_grid_size ;;
  ret ("Catch game with grid size " +:+ pretty g).

(** ** Callers of the class *)

(** A caller that calls [update] for each action of a list, in order, and
    collects the returned triples; an exception ends the loop. *)
Fixpoint play (actions : list Z) : M (list (observation * Z * bool)) :=
  match actions with
  | [] => ret []
  | action :: rest =>
      r <- update action ;;
      rs <- play rest ;;
      ret (r :: rs)
  end.

(** The instance left behind by successive [update] calls. *)
Definition after (self : Catcher) (actions : list Z) : Catcher :=
  foldl (fun s action => snd (update action s)) self actions.

(** An agent that moves the basket toward the fruit's column: action 2
    (right) when the basket is left of the fruit, 0 (left) when it is right
    of it, 1 (stay) otherwise. *)
Definition chase (self : Catcher) : Z :=
  match _state self with
  | Some [(_, fruit_col, basket)] =>
      if basket <? fruit_col then 2 else if fruit_col <? basket then 0 else 1
  | _ => 1
  end.

(** The actions that agent takes over [k] steps. *)
Fixpoint chase_actions (k : nat) (self : Catcher) : list Z :=
  match k with
  | O => []
  | S k' => chase self :: chase_actions k' (snd (update (chase self) self))
  end.

(** * Properties *)

(** ** Frame: which methods read the instance without changing it *)

Section Frame.
Context {A B : Type}.

Lemma reads_only_ret (a : A) : reads_only (ret a).
Proof. intros self. reflexivity. Qed.

Lemma reads_only_raise (e : exn) : reads_only (@raise A e).
Proof. intros self. reflexivity. Qed.

Lemma reads_only_bind (m : M A) (k : A -> M B) :
  reads_only m -> (forall a, reads_only (k a)) -> reads_only (bind m k).
Proof.
  intros Hm Hk self. unfold bind.
  specialize (Hm self). destruct (m self) as [[a|e] self']; simpl in Hm; subst.
  - apply Hk.
  - reflexivity.
Qed.
End Frame.

Lemma reads_only_get_grid_size : reads_only get_grid_size.
Proof. intros self. reflexivity. Qed.

Lemma reads_only_get_output_type : reads_only get_output_type.
Proof. intros self. reflexivity. Qed.

Lemma reads_only_get_output_shape : reads_only get_output_shape.
Proof. intros self. unfold get_output_shape. destruct (output_shape self); reflexivity. Qed.

Lemma reads_only_state : reads_only state.
Proof. intros self. unfold state. destruct (_state self); reflexivity. Qed.

Create HintDb frame.
#[local] Hint Resolve reads_only_ret reads_only_raise reads_only_get_grid_size
  reads_only_get_output_type reads_only_get_output_shape reads_only_state : frame.

(** Walks down a method body: binds, branches and destructuring lets. *)
Ltac frame_step :=
  match goal with
  | |- reads_only (bind _ _) => apply reads_only_bind; [ | intros ? ]
  | |- reads_only (match ?x with _ => _ end) => destruct x
  | |- reads_only _ => solve [ auto with frame ]
  end.

Ltac frame := repeat frame_step.

Lemma reads_only_first_row (a : list row) : reads_only (first_row a).
Proof. unfold first_row. frame. Qed.

Lemma reads_only_np_zeros (n m : Z) : reads_only (np_zeros n m).
Proof. unfold np_zeros. frame. Qed.

Lemma reads_only_setitem (c : canvas) (i j v : Z) : reads_only (setitem c i j v).
Proof. unfold setitem. frame. Qed.

Lemma reads_only_setslice (c : canvas) (i lo hi v : Z) :
  reads_only (setslice c i lo hi v).
Proof. unfold setslice. frame. Qed.

Lemma reads_only_reshape (c : canvas) (shp : list Z) : reads_only (reshape c shp).
Proof. unfold reshape. frame. Qed.

#[local] Hint Resolve reads_only_first_row reads_only_np_zeros reads_only_setitem
  reads_only_setslice reads_only_reshape : frame.

Lemma reads_only_draw_state : reads_only _draw_state.
Proof. unfold _draw_state. frame. Qed.

#[local] Hint Resolve reads_only_draw_state : frame.

Lemma reads_only_reward : reads_only reward.
Proof. unfold reward. frame. Qed.

Lemma reads_only_is_over : reads_only is_over.
Proof. unfold is_over. frame. Qed.

Lemma reads_only_observe_image : reads_only observe_image.
Proof. unfold observe_image. frame. Qed.

Lemma reads_only_observe : reads_only observe.
Proof. unfold observe. frame. Qed.

(** The state after [update] is the state after [_update_state], whatever
    the rest of [update] returns or raises. *)
Lemma update_state_effect (action : Z) (self : Catcher) :
  snd (update action self) = snd (_update_state action self).
Proof.
  unfold update, bind at 1.
  destruct (_update_state action self) as [[[]|e] self']; [ | reflexivity ].
  simpl. apply (reads_only_bind reward). { apply reads_only_reward. }
  intros rew. apply reads_only_bind. { apply reads_only_is_over. }
  intros go. apply reads_only_bind. { apply reads_only_observe. }
  intros o. apply reads_only_ret.
Qed.

(** C9: [observe], [observe_image], [reward] and [is_over] leave the
    instance, and so the state (fruit_row, fruit_col, basket), unchanged,
    whether they return or raise. *)
Theorem observers_leave_state_unchanged (self : Catcher) :
  snd (observe self) = self /\
  snd (observe_image self) = self /\
  snd (reward self) = self /\
  snd (is_over self) = self.
Proof.
  split; [ apply reads_only_observe | ].
  split; [ apply reads_only_observe_image | ].
  split; [ apply reads_only_reward | apply reads_only_is_over ].
Qed.

(** ** The methods on an instance with a state row *)

Section OnInstance.
Variables (g : Z) (ty : string) (sh : option (list Z)).
Variables (f0 f1 b : Z).

Lemma update_state_eval (action : Z) :
  _update_state action (instance g ty sh (f0, f1, b)) =
  (Ok tt,
   instance g ty sh
     (f0 + 1, f1,
      Z.min (Z.max 1 (b + (if action =? 0 then -1 else if action =? 1 then 0 else 1)))
            (g - 1))).
Proof. reflexivity. Qed.

Lemma reward_eval :
  reward (instance g ty sh (f0, f1, b)) =
  (Ok (if f0 =? g - 1 then if Z.abs (f1 - b) <=? 1 then 1 else -1 else 0),
   instance g ty sh (f0, f1, b)).
Proof.
  unfold reward, bind; simpl.
  destruct (f0 =? g - 1); [ destruct (Z.abs (f1 - b) <=? 1) | ]; reflexivity.
Qed.

Lemma is_over_eval :
  is_over (instance g ty sh (f0, f1, b)) =
  (Ok (f0 =? g - 1), instance g ty sh (f0, f1, b)).
Proof.
  unfold is_over, bind; simpl. destruct (f0 =? g - 1); reflexivity.
Qed.

Lemma update_snd_eval (action : Z) :
  snd (update action (instance g ty sh (f0, f1, b))) =
  instance g ty sh
    (f0 + 1, f1,
     Z.min (Z.max 1 (b + (if action =? 0 then -1 else if action =? 1 then 0 else 1)))
           (g - 1)).
Proof. rewrite update_state_effect, update_state_eval. reflexivity. Qed.
End OnInstance.

(** C1: [update] (through [_update_state]) adds 1 to fruit_row, keeps
    fruit_col, and sets basket to min(max(1, basket + delta), grid_size-1)
    with delta = -1 for action 0, 0 for action 1 and +1 for any other
    action; on a grid of size at least 2 (every constructed instance has
    size at least 4) the new basket lies in [1, grid_size-1]. *)
Theorem update_advances_state (g : Z) (ty : string) (sh : option (list Z))
    (f0 f1 b action : Z) :
  let delta := if decide (action = 0) then -1
               else if decide (action = 1) then 0 else 1 in
  let new_basket := Z.min (Z.max 1 (b + delta)) (g - 1) in
  _update_state action (instance g ty sh (f0, f1, b)) =
    (Ok tt, instance g ty sh (f0 + 1, f1, new_basket)) /\
  snd (update action (instance g ty sh (f0, f1, b))) =
    instance g ty sh (f0 + 1, f1, new_basket) /\
  (2 <= g -> 1 <= new_basket <= g - 1).
Proof.
  intros delta new_basket.
  assert (Hd : (if action =? 0 then -1 else if action =? 1 then 0 else 1) = delta).
  { unfold delta. destruct (Z.eqb_spec action 0), (Z.eqb_spec action 1);
      repeat case_decide; lia. }
  assert (Hs : _update_state action (instance g ty sh (f0, f1, b)) =
               (Ok tt, instance g ty sh (f0 + 1, f1, new_basket))).
  { rewrite update_state_eval, Hd. reflexivity. }
  split; [ exact Hs | ].
  split; [ rewrite update_snd_eval, Hd; reflexivity | ].
  unfold new_basket. lia.
Qed.

Lemma update_advances_state_witness :
  snd (update 2 (instance 5 "pixels" (Some [25]) (0, 2, 4))) =
    instance 5 "pixels" (Some [25]) (1, 2, 4) /\
  1 <= 4 <= 5 - 1.
Proof.
  destruct (update_advances_state 5 "pixels" (Some [25]) 0 2 4 2) as (_ & Hu & Hr).
  split; [ exact Hu | ].
  apply Hr. lia.
Defined.

(** C2: [reward] is +1 when fruit_row = grid_size-1 and
    |fruit_col - basket| <= 1, -1 when fruit_row = grid_size-1 and
    |fruit_col - basket| > 1, and 0 otherwise; so a nonzero reward implies
    that [is_over] is true on the same state. *)
Theorem reward_three_valued (g : Z) (ty : string) (sh : option (list Z))
    (fruit_row fruit_col basket : Z) :
  let self := instance g ty sh (fruit_row, fruit_col, basket) in
  (fruit_row = g - 1 -> Z.abs (fruit_col - basket) <= 1 -> fst (reward self) = Ok 1) /\
  (fruit_row = g - 1 -> Z.abs (fruit_col - basket) > 1 -> fst (reward self) = Ok (-1)) /\
  (fruit_row <> g - 1 -> fst (reward self) = Ok 0) /\
  (forall r, fst (reward self) = Ok r -> r <> 0 -> fst (is_over self) = Ok true).
Proof.
  intros self. unfold self. rewrite reward_eval, is_over_eval. simpl.
  destruct (Z.eqb_spec fruit_row (g - 1)) as [He|Hne];
    destruct (Z.leb_spec (Z.abs (fruit_col - basket)) 1) as [Hle|Hgt].
  - repeat split; intros; try reflexivity; lia.
  - repeat split; intros; try reflexivity; lia.
  - repeat split; intros; try reflexivity; try lia; congruence.
  - repeat split; intros; try reflexivity; try lia; congruence.
Qed.

Lemma reward_three_valued_witness :
  fst (reward (instance 5 "pixels" (Some [25]) (4, 2, 2))) = Ok 1 /\
  fst (reward (instance 5 "pixels" (Some [25]) (4, 0, 2))) = Ok (-1) /\
  fst (reward (instance 5 "pixels" (Some [25]) (3, 2, 2))) = Ok 0 /\
  fst (is_over (instance 5 "pixels" (Some [25]) (4, 0, 2))) = Ok true.
Proof.
  split; [ apply (reward_three_valued 5 "pixels" (Some [25]) 4 2 2); simpl; lia | ].
  split; [ apply (reward_three_valued 5 "pixels" (Some [25]) 4 0 2); simpl; lia | ].
  split; [ apply (reward_three_valued 5 "pixels" (Some [25]) 3 2 2); lia | ].
  apply (proj2 (proj2 (proj2 (reward_three_valued 5 "pixels" (Some [25]) 4 0 2))) (-1));
    [ reflexivity | lia ].
Defined.

(** C7: [is_over] is true exactly when fruit_row = grid_size-1; it is
    computed from the state array and grid_size alone (no other attribute
    holds a flag), so after a transition it reflects the new state. *)
Theorem is_over_iff_bottom_row (g : Z) (ty : string) (sh : option (list Z))
    (f0 f1 b : Z) :
  let self := instance g ty sh (f0, f1, b) in
  (fst (is_over self) = Ok true <-> f0 = g - 1) /\
  (fst (is_over self) = Ok false <-> f0 <> g - 1) /\
  (forall ty' sh', fst (is_over (instance g ty' sh' (f0, f1, b))) = fst (is_over self)) /\
  (forall action,
     fst (is_over (snd (update action self))) = Ok (bool_decide (f0 + 1 = g - 1))).
Proof.
  intros self. unfold self. rewrite is_over_eval. simpl.
  split; [ | split; [ | split ] ].
  - destruct (Z.eqb_spec f0 (g - 1)); split; intros; congruence.
  - destruct (Z.eqb_spec f0 (g - 1)); split; intros; congruence.
  - intros ty' sh'. rewrite is_over_eval. reflexivity.
  - intros action.
    rewrite update_snd_eval, is_over_eval. simpl. f_equal.
    destruct (Z.eqb_spec (f0 + 1) (g - 1)); case_bool_decide; congruence.
Qed.

(** ** Indexing and rendering *)

Lemma norm_index_nonneg (n i : Z) :
  0 <= i < n -> norm_index n i = Some (Z.to_nat i).
Proof.
  intros H. unfold norm_index.
  destruct (Z.leb_spec 0 i), (Z.ltb_spec i n); simpl; try lia. reflexivity.
Qed.

Lemma norm_index_last (n : Z) :
  1 <= n -> norm_index n (-1) = Some (Z.to_nat (n - 1)).
Proof.
  intros H. unfold norm_index. simpl.
  destruct (Z.leb_spec (- n) (-1)); simpl; [ | lia ].
  f_equal. lia.
Qed.

Lemma zero_row_lookup (n j b' : nat) (hit : bool) :
  (b' < n)%nat -> (j < n)%nat ->
  (if hit then <[j := 1]> (replicate n 0) else replicate n 0) !! b' =
  Some (if hit && bool_decide (b' = j) then 1 else 0).
Proof.
  intros Hb Hj. destruct hit; simpl.
  - destruct (decide (b' = j)) as [->|Hne].
    + rewrite list_lookup_insert_eq by (rewrite length_replicate; lia).
      rewrite bool_decide_eq_true_2; reflexivity.
    + rewrite list_lookup_insert_ne by congruence.
      rewrite bool_decide_eq_false_2 by exact Hne.
      apply lookup_replicate_2; lia.
  - apply lookup_replicate_2; lia.
Qed.

Lemma painted_cell (n i j r lo k a b' : nat) (row1 : list Z) :
  let zeros := replicate n (replicate n 0) in
  let c1 := <[i := <[j := 1]> (replicate n 0)]> zeros in
  (i < n)%nat -> (j < n)%nat -> (r < n)%nat -> (lo + k <= n)%nat ->
  (a < n)%nat -> (b' < n)%nat ->
  c1 !! r = Some row1 ->
  (line ← (<[r := list_inserts lo (replicate k 1) row1]> c1) !! a; line !! b') =
  Some (if decide ((a = i /\ b' = j) \/ (a = r /\ (lo <= b' < lo + k)%nat)) then 1 else 0).
Proof.
  intros zeros c1 Hi Hj Hr Hk Ha Hb Hrow.
  assert (Hlen1 : length c1 = n).
  { unfold c1, zeros. rewrite length_insert, length_replicate. reflexivity. }
  assert (Hc1 : forall a, (a < n)%nat ->
            c1 !! a = Some (if bool_decide (a = i) then <[j := 1]> (replicate n 0) else replicate n 0)).
  { intros a' Ha'. unfold c1, zeros. rewrite list_lookup_insert, length_replicate.
    case_decide; case_bool_decide; try reflexivity; try (exfalso; lia).
    apply lookup_replicate_2; lia. }
  rewrite list_lookup_insert, Hlen1.
  rewrite (Hc1 r Hr) in Hrow. injection Hrow as <-.
  case_decide as Hra.
  - destruct Hra as [-> _]. simpl.
    destruct (decide (lo <= b' < lo + k)%nat) as [Hin|Hout].
    + rewrite list_lookup_inserts.
      * rewrite lookup_replicate_2 by lia. case_decide; [ reflexivity | exfalso; lia ].
      * rewrite length_replicate. lia.
      * case_bool_decide; rewrite ?length_insert, length_replicate; lia.
    + assert (Hside : (b' < lo)%nat \/ (lo + length (replicate k (1:Z)) <= b')%nat).
      { rewrite length_replicate. lia. }
      destruct Hside as [Hlt|Hge];
        [ rewrite list_lookup_inserts_lt by exact Hlt
        | rewrite list_lookup_inserts_ge by exact Hge ];
        rewrite zero_row_lookup by assumption;
        case_bool_decide; case_bool_decide; case_decide; simpl;
          try reflexivity; exfalso; lia.
  - rewrite (Hc1 a Ha). simpl.
    rewrite zero_row_lookup by assumption.
    case_bool_decide; case_bool_decide; case_decide; simpl;
      try reflexivity; exfalso; lia.
Qed.

Lemma clip_bound_range (n x : Z) : 0 <= n -> 0 <= clip_bound n x <= n.
Proof. intros H. unfold clip_bound. destruct (Z.ltb_spec x 0); lia. Qed.

Lemma bind_Ok {A B} (m : M A) (k : A -> M B) (self self' : Catcher) (a : A) :
  m self = (Ok a, self') -> bind m k self = k a self'.
Proof. intros H. unfold bind. rewrite H. reflexivity. Qed.

Lemma bind_Raise {A B} (m : M A) (k : A -> M B) (self self' : Catcher) (e : exn) :
  m self = (Raise e, self') -> bind m k self = (Raise e, self').
Proof. intros H. unfold bind. rewrite H. reflexivity. Qed.

Lemma np_zeros_Ok (n : Z) (self : Catcher) :
  0 <= n ->
  np_zeros n n self = (Ok (replicate (Z.to_nat n) (replicate (Z.to_nat n) 0)), self).
Proof.
  intros H. unfold np_zeros. destruct (Z.ltb_spec n 0); [ lia | reflexivity ].
Qed.

Lemma setitem_Ok (c : canvas) (i j v : Z) (i' j' : nat) (r : list Z) (self : Catcher) :
  norm_index (Z.of_nat (length c)) i = Some i' ->
  c !! i' = Some r ->
  norm_index (Z.of_nat (length r)) j = Some j' ->
  setitem c i j v self = (Ok (<[i' := <[j' := v]> r]> c), self).
Proof. intros Hi Hr Hj. unfold setitem. rewrite Hi, Hr, Hj. reflexivity. Qed.

Lemma setitem_row_out_of_range (c : canvas) (i j v : Z) (self : Catcher) :
  norm_index (Z.of_nat (length c)) i = None ->
  setitem c i j v self = (Raise IndexError, self).
Proof. intros Hi. unfold setitem. rewrite Hi. reflexivity. Qed.

Lemma setslice_Ok (c : canvas) (i lo hi v : Z) (i' : nat) (r : list Z) (self : Catcher) :
  norm_index (Z.of_nat (length c)) i = Some i' ->
  c !! i' = Some r ->
  setslice c i lo hi v self =
  (Ok (<[i' := list_inserts (Z.to_nat (clip_bound (Z.of_nat (length r)) lo))
                 (replicate (Z.to_nat (clip_bound (Z.of_nat (length r)) hi -
                                       clip_bound (Z.of_nat (length r)) lo)) v) r]> c),
   self).
Proof. intros Hi Hr. unfold setslice. rewrite Hi, Hr. reflexivity. Qed.

Lemma draw_state_cells (g : Z) (ty : string) (sh : option (list Z)) (f0 f1 b : Z) :
  0 <= f0 < g -> 0 <= f1 < g ->
  exists c : canvas,
    _draw_state (instance g ty sh (f0, f1, b)) = (Ok c, instance g ty sh (f0, f1, b)) /\
    length c = Z.to_nat g /\
    (forall r, r ∈ c -> length r = Z.to_nat g) /\
    forall i j, 0 <= i < g -> 0 <= j < g ->
      cell c i j =
      Some (if decide ((i = f0 /\ j = f1) \/
                       (i = g - 1 /\ clip_bound g (b - 1) <= j < clip_bound g (b + 2)))
            then 1 else 0).
Proof.
  intros Hf0 Hf1.
  assert (Hg : 1 <= g) by lia.
  set (n := Z.to_nat g).
  assert (Hn : Z.of_nat n = g) by (unfold n; lia).
  set (zeros := replicate n (replicate n 0)).
  set (c1 := <[Z.to_nat f0 := <[Z.to_nat f1 := 1]> (replicate n 0)]> zeros).
  assert (Hlen1 : length c1 = n).
  { unfold c1, zeros. rewrite length_insert, length_replicate. reflexivity. }
  assert (Hrows1 : forall k r, c1 !! k = Some r -> length r = n).
  { intros k r Hk. unfold c1, zeros in Hk. apply list_lookup_insert_Some in Hk.
    destruct Hk as [(_ & <- & _)|(_ & Hk)].
    - rewrite length_insert, length_replicate. reflexivity.
    - apply lookup_replicate_1 in Hk. destruct Hk as [-> _]. apply length_replicate. }
  destruct (c1 !! Z.to_nat (g - 1)) as [row1|] eqn:Hrow.
  2:{ exfalso. apply lookup_ge_None in Hrow. lia. }
  pose proof (Hrows1 _ _ Hrow) as Hlen_row1.
  pose proof (clip_bound_range g (b - 1) ltac:(lia)) as Hlo.
  pose proof (clip_bound_range g (b + 2) ltac:(lia)) as Hhi.
  eexists. split; [ | split; [ | split ] ].
  - unfold _draw_state.
    do 3 (erewrite bind_Ok by reflexivity). cbn [grid_size instance].
    erewrite bind_Ok by (apply np_zeros_Ok; lia).
    fold n. fold zeros.
    erewrite bind_Ok with (a := c1).
    2:{ apply setitem_Ok with (r := replicate n 0).
        - unfold zeros. rewrite length_replicate, Hn. apply norm_index_nonneg, Hf0.
        - unfold zeros. apply lookup_replicate_2. lia.
        - rewrite length_replicate, Hn. apply norm_index_nonneg, Hf1. }
    erewrite bind_Ok.
    2:{ apply setslice_Ok with (r := row1); [ | exact Hrow ].
        rewrite Hlen1, Hn. apply norm_index_last, Hg. }
    rewrite Hlen_row1, Hn. reflexivity.
  - rewrite length_insert. exact Hlen1.
  - intros r Hr. apply list_elem_of_lookup in Hr. destruct Hr as [k Hk].
    apply list_lookup_insert_Some in Hk. destruct Hk as [(_ & <- & _)|(_ & Hk)].
    + rewrite length_inserts. exact Hlen_row1.
    + exact (Hrows1 _ _ Hk).
  - intros i j Hi Hj. unfold cell.
    destruct (Z.leb_spec 0 i), (Z.leb_spec 0 j); try lia.
    cbn [andb]. unfold c1, zeros in *.
    rewrite (painted_cell n (Z.to_nat f0) (Z.to_nat f1) (Z.to_nat (g - 1))
               (Z.to_nat (clip_bound g (b - 1)))
               (Z.to_nat (clip_bound g (b + 2) - clip_bound g (b - 1)))
               (Z.to_nat i) (Z.to_nat j) row1); try lia; try exact Hrow.
    f_equal. repeat case_decide; try reflexivity; exfalso; lia.
Qed.

Lemma norm_index_None_ge (n i : Z) : 0 <= n <= i -> norm_index n i = None.
Proof.
  intros H. unfold norm_index.
  destruct (Z.leb_spec 0 i), (Z.ltb_spec i n); simpl; try lia;
    destruct (Z.leb_spec (- n) i), (Z.ltb_spec i 0); simpl; try lia; reflexivity.
Qed.

Lemma draw_state_negative_grid (g : Z) (ty : string) (sh : option (list Z)) (r : row) :
  g < 0 ->
  _draw_state (instance g ty sh r) = (Raise ValueError, instance g ty sh r).
Proof.
  intros Hg. destruct r as [[f0 f1] b]. unfold _draw_state.
  do 3 (erewrite bind_Ok by reflexivity). cbn [grid_size instance].
  apply bind_Raise. unfold np_zeros.
  destruct (Z.ltb_spec g 0); [ reflexivity | lia ].
Qed.

Lemma draw_state_row_overrun (g : Z) (ty : string) (sh : option (list Z)) (f0 f1 b : Z) :
  0 <= g <= f0 ->
  _draw_state (instance g ty sh (f0, f1, b)) =
  (Raise IndexError, instance g ty sh (f0, f1, b)).
Proof.
  intros Hg. unfold _draw_state.
  do 3 (erewrite bind_Ok by reflexivity). cbn [grid_size instance].
  erewrite bind_Ok by (apply np_zeros_Ok; lia).
  apply bind_Raise, setitem_row_out_of_range.
  rewrite length_replicate. apply norm_index_None_ge. lia.
Qed.

Lemma draw_state_Ok_row (g : Z) (ty : string) (sh : option (list Z)) (f0 f1 b : Z)
    (c : canvas) :
  fst (_draw_state (instance g ty sh (f0, f1, b))) = Ok c -> f0 <= g - 1.
Proof.
  intros H.
  destruct (Z.lt_ge_cases g 0) as [Hneg|Hpos].
  - rewrite draw_state_negative_grid in H by exact Hneg. discriminate.
  - destruct (Z.lt_ge_cases f0 g) as [Hlt|Hge]; [ lia | ].
    rewrite draw_state_row_overrun in H by lia. discriminate.
Qed.

Lemma observe_pixels_draw_raises (self self' : Catcher) (e : exn) :
  output_type self = "pixels"%string ->
  _draw_state self = (Raise e, self') ->
  observe self = (Raise e, self').
Proof.
  intros Hty Hdraw. unfold observe.
  erewrite bind_Ok by reflexivity. rewrite Hty. cbn [String.eqb Ascii.eqb Bool.eqb].
  apply bind_Raise, bind_Raise. exact Hdraw.
Qed.

(** C10: [update] has no guard for a terminal state.  Called where
    [is_over] is true (fruit_row = grid_size-1) on a pixel-mode instance, it
    stores fruit_row = grid_size and then raises IndexError from the
    rendering, which indexes the canvas at row grid_size; the rendering
    succeeds only on states with fruit_row <= grid_size-1. *)
Theorem update_past_terminal_overruns_canvas (g : Z) (sh : option (list Z))
    (f1 b action : Z) :
  0 <= g ->
  let self := instance g "pixels" sh (g - 1, f1, b) in
  let delta := if decide (action = 0) then -1
               else if decide (action = 1) then 0 else 1 in
  let self' := instance g "pixels" sh (g, f1, Z.min (Z.max 1 (b + delta)) (g - 1)) in
  fst (is_over self) = Ok true /\
  (forall ty, snd (update action (instance g ty sh (g - 1, f1, b))) =
              instance g ty sh (g, f1, Z.min (Z.max 1 (b + delta)) (g - 1))) /\
  update action self = (Raise IndexError, self') /\
  _draw_state self' = (Raise IndexError, self') /\
  (forall f0 c, fst (_draw_state (instance g "pixels" sh (f0, f1, b))) = Ok c ->
                f0 <= g - 1).
Proof.
  intros Hg self delta self'.
  assert (Hd : (if action =? 0 then -1 else if action =? 1 then 0 else 1) = delta).
  { unfold delta. destruct (Z.eqb_spec action 0), (Z.eqb_spec action 1);
      repeat case_decide; lia. }
  assert (Hdraw : _draw_state self' = (Raise IndexError, self')).
  { apply draw_state_row_overrun. lia. }
  split; [ | split; [ | split; [ | split ] ] ].
  - unfold self. rewrite is_over_eval. simpl. rewrite Z.eqb_refl. reflexivity.
  - intros ty. rewrite update_snd_eval, Hd. replace (g - 1 + 1) with g by lia.
    reflexivity.
  - unfold update, self.
    erewrite bind_Ok by apply update_state_eval.
    rewrite Hd. replace (g - 1 + 1) with g by lia. fold self'.
    erewrite bind_Ok by apply reward_eval.
    erewrite bind_Ok by apply is_over_eval.
    apply bind_Raise, observe_pixels_draw_raises; [ reflexivity | exact Hdraw ].
  - exact Hdraw.
  - intros f0 c. apply draw_state_Ok_row.
Qed.

Lemma update_past_terminal_overruns_canvas_witness :
  update 1 (instance 4 "pixels" (Some [16]) (3, 0, 2)) =
  (Raise IndexError, instance 4 "pixels" (Some [16]) (4, 0, 2)).
Proof.
  apply (proj1 (proj2 (proj2
    (update_past_terminal_overruns_canvas 4 (Some [16]) 0 2 1 ltac:(lia))))).
Defined.

Lemma length_concat_square (n : nat) (c : canvas) :
  (forall r, r ∈ c -> length r = n) ->
  length (concat c) = (length c * n)%nat.
Proof.
  induction c as [|r c IH]; intros Hrows; [ reflexivity | ].
  cbn [concat length]. rewrite length_app, IH.
  - rewrite (Hrows r) by apply list_elem_of_here. lia.
  - intros r' Hr'. apply Hrows. apply list_elem_of_further, Hr'.
Qed.

Lemma reshape_Ok (c : canvas) (shp : list Z) (self : Catcher) :
  Forall (fun d => 0 <= d) shp ->
  product shp = Z.of_nat (length (concat c)) ->
  reshape c shp self = (Ok (mkArray shp (concat c)), self).
Proof.
  intros Hpos.
  assert (Hall : forallb (fun d => 0 <=? d) shp = true).
  { induction Hpos as [|d l Hd _ IH]; [ reflexivity | ].
    cbn [forallb]. rewrite IH. destruct (Z.leb_spec 0 d); [ reflexivity | lia ]. }
  intros Hprod. unfold reshape.
  rewrite Hall, Hprod, Z.eqb_refl. reflexivity.
Qed.

(** Away from the right wall the rendering is the one the class docstring
    describes: for a state with 0 <= fruit_row <= grid_size-1,
    0 <= fruit_col <= grid_size-1 and 1 <= basket <= grid_size-2, the canvas
    of [_draw_state] is a grid_size by grid_size grid with 1 at the fruit's
    cell, 1 on the three bottom-row cells centred at the basket column and 0
    elsewhere; [observe_image] and pixel-mode [observe] (default shape)
    return that canvas reshaped. *)
Theorem rendered_canvas_in_range (g : Z) (ty : string) (sh : option (list Z))
    (f0 f1 b : Z) :
  0 <= f0 <= g - 1 -> 0 <= f1 <= g - 1 -> 1 <= b <= g - 2 ->
  let self := instance g ty sh (f0, f1, b) in
  exists c : canvas,
    _draw_state self = (Ok c, self) /\
    length c = Z.to_nat g /\
    (forall r, r ∈ c -> length r = Z.to_nat g) /\
    rendered_as_claimed g (f0, f1, b) c /\
    observe_image self = (Ok (mkArray [1; 1; g; g] (concat c)), self) /\
    (ty = "pixels"%string -> sh = Some [g * g] ->
     observe self = (Ok (ObsPixels (mkArray [1; g * g] (concat c))), self)).
Proof.
  intros Hf0 Hf1 Hb self.
  destruct (draw_state_cells g ty sh f0 f1 b ltac:(lia) ltac:(lia))
    as (c & Hdraw & Hlen & Hrows & Hcells).
  assert (Hlo : clip_bound g (b - 1) = b - 1).
  { unfold clip_bound. destruct (Z.ltb_spec (b - 1) 0); lia. }
  assert (Hhi : clip_bound g (b + 2) = b + 2).
  { unfold clip_bound. destruct (Z.ltb_spec (b + 2) 0); lia. }
  rewrite Hlo, Hhi in Hcells.
  assert (Hsize : Z.of_nat (length (concat c)) = g * g).
  { rewrite (length_concat_square (Z.to_nat g) c Hrows), Hlen. lia. }
  exists c. split; [ exact Hdraw | ].
  split; [ exact Hlen | ].
  split; [ exact Hrows | ].
  split; [ | split ].
  - unfold rendered_as_claimed. split; [ | split ].
    + rewrite Hcells by lia. rewrite decide_True by (left; lia). reflexivity.
    + intros j Hj. rewrite Hcells by lia. rewrite decide_True by (right; lia).
      reflexivity.
    + intros i j Hi Hj Hfruit Hstrip. rewrite Hcells by lia.
      rewrite decide_False by lia. reflexivity.
  - unfold observe_image, self.
    erewrite bind_Ok by exact Hdraw.
    erewrite bind_Ok by reflexivity. cbn [grid_size instance].
    apply reshape_Ok.
    + repeat constructor; lia.
    + rewrite Hsize. unfold product. simpl. lia.
  - intros -> ->. unfold observe, self.
    erewrite bind_Ok by reflexivity.
    cbn [output_type instance String.eqb Ascii.eqb Bool.eqb].
    erewrite bind_Ok.
    2:{ erewrite bind_Ok by exact Hdraw.
        erewrite bind_Ok by reflexivity.
        erewrite bind_Ok; [ reflexivity | ].
        apply reshape_Ok.
        - repeat constructor; nia.
        - rewrite Hsize. unfold product. simpl. lia. }
    reflexivity.
Qed.

Lemma rendered_canvas_in_range_witness :
  exists c : canvas,
    _draw_state (instance 5 "pixels" (Some [25]) (1, 2, 3)) =
      (Ok c, instance 5 "pixels" (Some [25]) (1, 2, 3)) /\
    rendered_as_claimed 5 (1, 2, 3) c.
Proof.
  destruct (rendered_canvas_in_range 5 "pixels" (Some [25]) 1 2 3
              ltac:(lia) ltac:(lia) ltac:(lia)) as (c & Hd & _ & _ & Hr & _).
  exists c. split; [ exact Hd | exact Hr ].
Defined.

(** ** Random draws: [reset] and construction *)

Section Counting.
Context {A : Type}.
Implicit Types (l : list A) (F : A -> list Catcher) (p : Catcher -> bool).

Lemma count_app p (d1 d2 : list Catcher) :
  count p (d1 ++ d2) = (count p d1 + count p d2)%nat.
Proof. unfold count. rewrite List.filter_app, length_app. reflexivity. Qed.

Lemma count_bind p F l :
  count p (l ≫= F) = sum_list_with (fun x => count p (F x)) l.
Proof.
  induction l as [|x l IH]; [ reflexivity | ].
  rewrite bind_cons, count_app, IH. reflexivity.
Qed.

Lemma sum_list_with_eq (f h : A -> nat) l :
  (forall x, x ∈ l -> f x = h x) -> sum_list_with f l = sum_list_with h l.
Proof.
  induction l as [|x l IH]; intros Hfh; [ reflexivity | ].
  cbn [sum_list_with]. rewrite (Hfh x) by apply list_elem_of_here.
  rewrite IH; [ reflexivity | ].
  intros y Hy. apply Hfh, list_elem_of_further, Hy.
Qed.

Lemma sum_list_with_const (k : nat) l :
  sum_list_with (fun _ => k) l = (length l * k)%nat.
Proof.
  induction l as [|x l IH]; [ reflexivity | ].
  cbn [sum_list_with length]. rewrite IH. lia.
Qed.

Lemma sum_list_with_zero (f : A -> nat) l :
  (forall x, x ∈ l -> f x = 0%nat) -> sum_list_with f l = 0%nat.
Proof.
  intros Hf. rewrite (sum_list_with_eq f (fun _ => 0%nat)) by exact Hf.
  rewrite sum_list_with_const. lia.
Qed.

Lemma sum_list_with_single (f : A -> nat) (k : nat) (x0 : A) l :
  NoDup l -> x0 ∈ l -> f x0 = k ->
  (forall x, x ∈ l -> x <> x0 -> f x = 0%nat) ->
  sum_list_with f l = k.
Proof.
  intros Hnd. induction Hnd as [|x l Hx Hnd IH]; intros Hin Hk Hzero.
  - apply elem_of_nil in Hin. contradiction.
  - cbn [sum_list_with]. apply elem_of_cons in Hin. destruct Hin as [->|Hin].
    + rewrite Hk, sum_list_with_zero; [ lia | ].
      intros y Hy. apply Hzero; [ apply list_elem_of_further, Hy | ].
      intros ->. contradiction.
    + rewrite (Hzero x) by (try apply list_elem_of_here; intros ->; contradiction).
      rewrite IH; [ reflexivity | exact Hin | exact Hk | ].
      intros y Hy. apply Hzero, list_elem_of_further, Hy.
Qed.
End Counting.

Lemma length_bind_sum {A} (F : A -> list Catcher) (l : list A) :
  length (l ≫= F) = sum_list_with (fun x => length (F x)) l.
Proof.
  induction l as [|x l IH]; [ reflexivity | ].
  rewrite bind_cons, length_app, IH. reflexivity.
Qed.

Lemma reset_small_grid (self : Catcher) :
  grid_size self < 4 -> reset self = Raise ValueError.
Proof.
  intros Hg. unfold reset, randint.
  destruct (Z.ltb_spec 0 (grid_size self - 1)); [ | reflexivity ].
  destruct (Z.ltb_spec 1 (grid_size self - 2)); [ lia | reflexivity ].
Qed.

Lemma reset_Ok (self : Catcher) :
  4 <= grid_size self ->
  reset self =
  Ok (n ← seqZ 0 (grid_size self - 1); m ← seqZ 1 (grid_size self - 3);
      [instance (grid_size self) (output_type self) (output_shape self) (0, n, m)]).
Proof.
  intros Hg. unfold reset, randint.
  destruct (Z.ltb_spec 0 (grid_size self - 1)); [ | lia ].
  destruct (Z.ltb_spec 1 (grid_size self - 2)); [ | lia ].
  replace (grid_size self - 1 - 0) with (grid_size self - 1) by lia.
  replace (grid_size self - 2 - 1) with (grid_size self - 3) by lia.
  reflexivity.
Qed.

Lemma reset_Ok_inv (self : Catcher) (d : list Catcher) :
  reset self = Ok d -> 4 <= grid_size self.
Proof.
  intros H. destruct (Z.lt_ge_cases (grid_size self) 4) as [Hlt|Hge]; [ | exact Hge ].
  rewrite reset_small_grid in H by exact Hlt. discriminate.
Qed.

Lemma elem_of_reset (self self' : Catcher) (d : list Catcher) :
  reset self = Ok d ->
  self' ∈ d <->
  exists n m, 0 <= n <= grid_size self - 2 /\ 1 <= m <= grid_size self - 3 /\
    self' = instance (grid_size self) (output_type self) (output_shape self) (0, n, m).
Proof.
  intros H. pose proof (reset_Ok_inv _ _ H) as Hg.
  rewrite reset_Ok in H by exact Hg. injection H as <-.
  rewrite list_elem_of_bind. split.
  - intros (n & Hin & Hn). apply list_elem_of_bind in Hin.
    destruct Hin as (m & Hin & Hm). apply list_elem_of_singleton in Hin.
    apply elem_of_seqZ in Hn, Hm. exists n, m. repeat split; try lia. exact Hin.
  - intros (n & m & Hn & Hm & ->). exists n. split; [ | apply elem_of_seqZ; lia ].
    apply list_elem_of_bind. exists m. split; [ | apply elem_of_seqZ; lia ].
    apply list_elem_of_singleton. reflexivity.
Qed.

(** C6 (amended): on a grid of size at least 4, [reset] sets fruit_row to 0
    and draws fruit_col uniformly from [0, grid_size-2] and basket uniformly
    from [1, grid_size-3] (each admissible pair is exactly one of the
    equally likely outcomes), and [is_over] is false afterwards; on a
    smaller grid [reset] raises ValueError. *)
Theorem reset_draws_uniformly (self : Catcher) :
  let g := grid_size self in
  (g < 4 -> reset self = Raise ValueError) /\
  (4 <= g ->
   exists d, reset self = Ok d /\
     NoDup d /\
     length d = Z.to_nat ((g - 1) * (g - 3)) /\
     (forall self', self' ∈ d <->
        exists n m, 0 <= n <= g - 2 /\ 1 <= m <= g - 3 /\
          self' = instance g (output_type self) (output_shape self) (0, n, m)) /\
     (forall n, 0 <= n <= g - 2 -> count (has_fruit_col n) d = Z.to_nat (g - 3)) /\
     (forall m, 1 <= m <= g - 3 -> count (has_basket m) d = Z.to_nat (g - 1)) /\
     (forall self', self' ∈ d -> is_over self' = (Ok false, self'))).
Proof.
  intros g. split; [ apply reset_small_grid | ].
  intros Hg. eexists. split; [ apply reset_Ok, Hg | ]. fold g.
  set (ty := output_type self). set (sh := output_shape self).
  split; [ | split; [ | split; [ | split; [ | split ] ] ] ].
  - apply NoDup_bind; [ | | apply NoDup_seqZ ].
    + intros n1 n2 s _ _ H1 H2.
      apply list_elem_of_bind in H1, H2.
      destruct H1 as (m1 & H1 & _), H2 as (m2 & H2 & _).
      apply list_elem_of_singleton in H1, H2. subst s.
      unfold instance, newaxis in H2. congruence.
    + intros n _. apply NoDup_bind; [ | | apply NoDup_seqZ ].
      * intros m1 m2 s _ _ H1 H2.
        apply list_elem_of_singleton in H1, H2. subst s.
        unfold instance, newaxis in H2. congruence.
      * intros m _. apply NoDup_singleton.
  - rewrite length_bind_sum.
    rewrite (sum_list_with_eq _ (fun _ => Z.to_nat (g - 3))).
    + rewrite sum_list_with_const, length_seqZ.
      rewrite Z2Nat.inj_mul by lia. reflexivity.
    + intros n _. rewrite length_bind_sum.
      rewrite (sum_list_with_eq _ (fun _ => 1%nat)) by (intros; reflexivity).
      rewrite sum_list_with_const, length_seqZ. lia.
  - intros self'. apply elem_of_reset. apply reset_Ok, Hg.
  - intros n0 Hn0. rewrite count_bind.
    apply (sum_list_with_single _ _ n0); [ apply NoDup_seqZ | apply elem_of_seqZ; lia | | ].
    + rewrite count_bind.
      rewrite (sum_list_with_eq _ (fun _ => 1%nat)).
      * rewrite sum_list_with_const, length_seqZ. lia.
      * intros m _. unfold count, has_fruit_col. cbn. rewrite Z.eqb_refl. reflexivity.
    + intros n _ Hne. rewrite count_bind. apply sum_list_with_zero.
      intros m _. unfold count, has_fruit_col. cbn.
      destruct (Z.eqb_spec n n0); [ contradiction | reflexivity ].
  - intros m0 Hm0. rewrite count_bind.
    rewrite (sum_list_with_eq _ (fun _ => 1%nat)).
    + rewrite sum_list_with_const, length_seqZ. lia.
    + intros n _. rewrite count_bind.
      apply (sum_list_with_single _ _ m0); [ apply NoDup_seqZ | apply elem_of_seqZ; lia | | ].
      * unfold count, has_basket. cbn. rewrite Z.eqb_refl. reflexivity.
      * intros m _ Hne. unfold count, has_basket. cbn.
        destruct (Z.eqb_spec m m0); [ contradiction | reflexivity ].
  - intros self' Hin. apply (elem_of_reset self) in Hin; [ | apply reset_Ok, Hg ].
    destruct Hin as (n & m & _ & _ & ->). rewrite is_over_eval.
    destruct (Z.eqb_spec 0 (grid_size self - 1)); [ lia | reflexivity ].
Qed.

Lemma reset_draws_uniformly_witness :
  exists d, reset (instance 5 "pixels" (Some [25]) (4, 0, 1)) = Ok d /\
    length d = 8%nat /\
    count (has_fruit_col 2) d = 2%nat /\
    count (has_basket 1) d = 4%nat.
Proof.
  destruct (proj2 (reset_draws_uniformly (instance 5 "pixels" (Some [25]) (4, 0, 1))))
    as (d & Hd & _ & Hlen & _ & Hf & Hb & _); [ simpl; lia | ].
  exists d. split; [ exact Hd | ].
  split; [ exact Hlen | ].
  split; [ apply Hf; simpl; lia | apply Hb; simpl; lia ].
Defined.

(** C6, as stated, fails on grids of size 2 and 3: the basket draw has an
    empty range and [reset] raises, as does construction. *)
Lemma reset_raises_on_grid_of_two :
  let self := mkCatcher 2 "pixels" (Some [4]) None in
  grid_size self > 1 /\
  reset self = Raise ValueError /\
  __init__ 2 None "pixels" = Raise ValueError.
Proof. split; [ simpl; lia | split; reflexivity ]. Qed.

Lemma reset_nonempty (self : Catcher) (d : list Catcher) :
  reset self = Ok d -> d <> [].
Proof.
  intros H Hnil. pose proof (reset_Ok_inv _ _ H) as Hg.
  assert (Hin : instance (grid_size self) (output_type self) (output_shape self) (0, 0, 1) ∈ d).
  { apply (elem_of_reset self); [ exact H | ].
    exists 0, 1. repeat split; lia. }
  rewrite Hnil in Hin. apply elem_of_nil in Hin. exact Hin.
Qed.

Lemma init_explicit_shape (g : Z) (shp : list Z) (otype : string) :
  __init__ g (Some shp) otype = reset (mkCatcher g otype None None).
Proof. reflexivity. Qed.

Lemma init_unknown_type (g : Z) (otype : string) :
  otype <> "pixels"%string -> otype <> "position"%string ->
  __init__ g None otype = reset (mkCatcher g otype None None).
Proof.
  intros H1 H2. unfold __init__.
  apply String.eqb_neq in H1, H2. rewrite H1, H2. reflexivity.
Qed.

Lemma observe_unknown_type (self : Catcher) :
  output_type self <> "pixels"%string -> output_type self <> "position"%string ->
  observe self = (Raise UnboundLocalError, self).
Proof.
  intros H1 H2. apply String.eqb_neq in H1, H2. unfold observe.
  erewrite bind_Ok by reflexivity. rewrite H1.
  erewrite bind_Ok by reflexivity.
  erewrite bind_Ok by reflexivity. rewrite H2.
  erewrite bind_Ok by reflexivity. reflexivity.
Qed.

Lemma observe_pixels_no_shape (self : Catcher) (c : canvas) :
  output_type self = "pixels"%string -> output_shape self = None ->
  _draw_state self = (Ok c, self) ->
  observe self = (Raise AttributeError, self).
Proof.
  intros Hty Hsh Hdraw. unfold observe.
  erewrite bind_Ok by reflexivity. rewrite Hty. cbn [String.eqb Ascii.eqb Bool.eqb].
  apply bind_Raise. erewrite bind_Ok by exact Hdraw.
  apply bind_Raise. unfold get_output_shape. rewrite Hsh. reflexivity.
Qed.

(** C3: what the code does with an explicit [output_shape].  The
    constructor assigns [self.output_shape] only when the argument is None,
    so a supplied shape is dropped: the attribute stays unassigned and
    pixel-mode [observe] raises AttributeError instead of returning the
    canvas reshaped to (1,) + output_shape. *)
Theorem explicit_output_shape_is_dropped (g : Z) (shp : list Z) :
  4 <= g ->
  exists d, __init__ g (Some shp) "pixels" = Ok d /\
    d <> [] /\
    forall self, self ∈ d ->
      output_shape self = None /\ observe self = (Raise AttributeError, self).
Proof.
  intros Hg. rewrite init_explicit_shape.
  set (self0 := mkCatcher g "pixels" None None).
  exists (n ← seqZ 0 (g - 1); m ← seqZ 1 (g - 3); [instance g "pixels" None (0, n, m)]).
  assert (Hreset : reset self0 =
    Ok (n ← seqZ 0 (g - 1); m ← seqZ 1 (g - 3); [instance g "pixels" None (0, n, m)])).
  { apply (reset_Ok self0). exact Hg. }
  split; [ exact Hreset | ].
  split; [ exact (reset_nonempty _ _ Hreset) | ].
  intros self Hin. apply (elem_of_reset self0 self _ Hreset) in Hin.
  destruct Hin as (n & m & Hn & Hm & ->). cbn [grid_size self0] in Hn, Hm.
  split; [ reflexivity | ].
  destruct (draw_state_cells g "pixels" None 0 n m ltac:(lia) ltac:(lia))
    as (c & Hdraw & _).
  apply (observe_pixels_no_shape _ c); [ reflexivity | reflexivity | exact Hdraw ].
Qed.

Lemma explicit_output_shape_is_dropped_witness :
  exists d, __init__ 10 (Some [100]) "pixels" = Ok d /\ d <> [] /\
    forall self, self ∈ d ->
      output_shape self = None /\ observe self = (Raise AttributeError, self).
Proof. apply (explicit_output_shape_is_dropped 10 [100]). lia. Defined.

(** C8 (amended): with an [output_type] that is neither 'pixels' nor
    'position' and no explicit [output_shape], construction succeeds (grid
    size at least 4) and leaves [output_shape] unassigned; the failure comes
    later, when [observe] raises UnboundLocalError. *)
Theorem unknown_output_type_fails_only_at_observe (g : Z) (otype : string) :
  otype <> "pixels"%string -> otype <> "position"%string -> 4 <= g ->
  exists d, __init__ g None otype = Ok d /\
    d <> [] /\
    forall self, self ∈ d ->
      output_shape self = None /\ observe self = (Raise UnboundLocalError, self).
Proof.
  intros H1 H2 Hg. rewrite (init_unknown_type g otype H1 H2).
  set (self0 := mkCatcher g otype None None).
  assert (Hreset : reset self0 =
    Ok (n ← seqZ 0 (g - 1); m ← seqZ 1 (g - 3); [instance g otype None (0, n, m)])).
  { apply (reset_Ok self0). exact Hg. }
  eexists. split; [ exact Hreset | ].
  split; [ exact (reset_nonempty _ _ Hreset) | ].
  intros self Hin. apply (elem_of_reset self0 self _ Hreset) in Hin.
  destruct Hin as (n & m & _ & _ & ->).
  split; [ reflexivity | ].
  apply observe_unknown_type; assumption.
Qed.

Lemma unknown_output_type_fails_only_at_observe_witness :
  exists d, __init__ 10 None "rgb" = Ok d /\ d <> [] /\
    forall self, self ∈ d ->
      output_shape self = None /\ observe self = (Raise UnboundLocalError, self).
Proof.
  apply (unknown_output_type_fails_only_at_observe 10 "rgb");
    [ discriminate | discriminate | lia ].
Defined.

(** C8, as stated, fails: construction with an unrecognised [output_type]
    and no [output_shape] returns an instance. *)
Lemma unknown_output_type_constructs :
  "rgb"%string <> "pixels"%string /\ "rgb"%string <> "position"%string /\
  exists d, __init__ 10 None "rgb" = Ok d /\
    instance 10 "rgb" None (0, 0, 1) ∈ d.
Proof.
  split; [ discriminate | ]. split; [ discriminate | ].
  eexists. split; [ reflexivity | ].
  vm_compute. apply list_elem_of_here.
Qed.

(** ** Reachable instances and the fruit-row invariant *)

Lemma init_is_reset (g : Z) (oshape : option (list Z)) (otype : string) :
  exists sh, __init__ g oshape otype = reset (mkCatcher g otype sh None).
Proof. unfold __init__. eexists. reflexivity. Qed.

(** Every reachable instance lives on a grid of size at least 4 and holds
    one state row with these bounds. *)
Lemma reachable_bounds (self : Catcher) :
  reachable self ->
  exists f0 f1 b,
    self = instance (grid_size self) (output_type self) (output_shape self) (f0, f1, b) /\
    4 <= grid_size self /\ 0 <= f0 /\
    0 <= f1 <= grid_size self - 2 /\ 1 <= b <= grid_size self - 1.
Proof.
  induction 1 as [g oshape otype d self Hinit Hin
                 | self d self' _ _ Hreset Hin
                 | self action _ IH].
  - destruct (init_is_reset g oshape otype) as (sh & Heq). rewrite Heq in Hinit.
    pose proof (reset_Ok_inv _ _ Hinit) as Hg.
    apply (elem_of_reset _ _ _ Hinit) in Hin. destruct Hin as (n & m & Hn & Hm & ->).
    cbn [grid_size] in Hg, Hn, Hm. exists 0, n, m.
    split; [ reflexivity | ]. cbn [grid_size instance]. lia.
  - pose proof (reset_Ok_inv _ _ Hreset) as Hg.
    apply (elem_of_reset _ _ _ Hreset) in Hin. destruct Hin as (n & m & Hn & Hm & ->).
    exists 0, n, m.
    split; [ reflexivity | ]. cbn [grid_size instance]. lia.
  - destruct IH as (f0 & f1 & b & Hself & Hg & Hf0 & Hf1 & Hb).
    rewrite Hself, update_snd_eval.
    eexists _, _, _. split; [ reflexivity | ].
    cbn [grid_size instance]. lia.
Qed.

Lemma reset_fruit_row (self self' : Catcher) (d : list Catcher) :
  reset self = Ok d -> self' ∈ d -> fruit_row_in_grid self' = true.
Proof.
  intros Hreset Hin. pose proof (reset_Ok_inv _ _ Hreset) as Hg.
  apply (elem_of_reset _ _ _ Hreset) in Hin. destruct Hin as (n & m & _ & _ & ->).
  unfold fruit_row_in_grid. cbn.
  destruct (Z.leb_spec 0 (grid_size self - 1)); [ reflexivity | lia ].
Qed.

Lemma init_fruit_row (g : Z) (oshape : option (list Z)) (otype : string)
    (d : list Catcher) (self : Catcher) :
  __init__ g oshape otype = Ok d -> self ∈ d -> fruit_row_in_grid self = true.
Proof. unfold __init__. apply reset_fruit_row. Qed.

Lemma fruit_row_in_grid_instance (self : Catcher) :
  fruit_row_in_grid self = true ->
  exists f0 f1 b,
    self = instance (grid_size self) (output_type self) (output_shape self) (f0, f1, b) /\
    0 <= f0 <= grid_size self - 1.
Proof.
  destruct self as [g ty sh [[|[[f0 f1] b] [|]]|]]; unfold fruit_row_in_grid; cbn;
    try discriminate.
  intros H. apply andb_true_iff in H. destruct H as [H1 H2].
  exists f0, f1, b. split; [ reflexivity | lia ].
Qed.

Lemma update_fruit_row (self : Catcher) (action : Z) :
  fruit_row_in_grid self = true -> fst (is_over self) = Ok false ->
  fruit_row_in_grid (snd (update action self)) = true.
Proof.
  intros Hinv Hover.
  destruct (fruit_row_in_grid_instance self Hinv) as (f0 & f1 & b & Hself & Hf0).
  rewrite Hself in Hover |- *. rewrite is_over_eval in Hover.
  rewrite update_snd_eval. unfold fruit_row_in_grid. cbn.
  cbn in Hover. injection Hover as Hover. apply Z.eqb_neq in Hover.
  apply andb_true_iff. split; [ apply Z.leb_le | apply Z.leb_le ]; lia.
Qed.

Lemma in_play_fruit_row (self : Catcher) :
  in_play self -> fruit_row_in_grid self = true.
Proof.
  induction 1 as [g oshape otype d self Hinit Hin
                 | self d self' _ _ Hreset Hin
                 | self action _ IH Hover].
  - exact (init_fruit_row _ _ _ _ _ Hinit Hin).
  - exact (reset_fruit_row _ _ _ Hreset Hin).
  - exact (update_fruit_row _ _ IH Hover).
Qed.

(** C4 (amended): 0 <= fruit_row <= grid_size-1 is established by [reset]
    (and so by construction) and preserved by every [update], for every
    action, that is called while [is_over] is false; hence it holds in
    every state of regular play. *)
Theorem fruit_row_invariant_until_terminal :
  (forall self d self',
     reset self = Ok d -> self' ∈ d -> fruit_row_in_grid self' = true) /\
  (forall self action,
     fruit_row_in_grid self = true -> fst (is_over self) = Ok false ->
     fruit_row_in_grid (snd (update action self)) = true) /\
  (forall self, in_play self -> fruit_row_in_grid self = true).
Proof.
  split; [ intros self d self'; apply reset_fruit_row | ].
  split; [ exact update_fruit_row | exact in_play_fruit_row ].
Qed.

Lemma fruit_row_invariant_until_terminal_witness :
  fruit_row_in_grid (snd (update 0 (instance 4 "position" (Some [3]) (2, 0, 1)))) = true.
Proof.
  apply (proj1 (proj2 fruit_row_invariant_until_terminal)); reflexivity.
Defined.

Lemma reachable_example_position :
  reachable (instance 4 "position" (Some [3]) (3, 0, 1)).
Proof.
  assert (H0 : reachable (instance 4 "position" (Some [3]) (0, 0, 1))).
  { apply (reach_init 4 None "position" _ _ eq_refl).
    vm_compute. apply list_elem_of_here. }
  pose proof (reach_update _ 1 H0) as H1. rewrite update_snd_eval in H1.
  pose proof (reach_update _ 1 H1) as H2. rewrite update_snd_eval in H2.
  pose proof (reach_update _ 1 H2) as H3. rewrite update_snd_eval in H3.
  exact H3.
Qed.

(** C4, as stated, fails: an [update] in a terminal state moves fruit_row
    to grid_size, outside [0, grid_size-1]. *)
Lemma update_in_terminal_state_breaks_invariant :
  let self := instance 4 "position" (Some [3]) (3, 0, 1) in
  reachable self /\
  fst (is_over self) = Ok true /\
  fruit_row_in_grid self = true /\
  update 1 self = (Ok (ObsPosition (4, 0, 1), 0, false),
                   instance 4 "position" (Some [3]) (4, 0, 1)) /\
  fruit_row_in_grid (snd (update 1 self)) = false.
Proof.
  split; [ exact reachable_example_position | ].
  repeat split; reflexivity.
Qed.

Lemma in_play_reachable (self : Catcher) : in_play self -> reachable self.
Proof.
  induction 1 as [g oshape otype d self Hinit Hin
                 | self d self' _ IH Hreset Hin
                 | self action _ IH _].
  - exact (reach_init _ _ _ _ _ Hinit Hin).
  - exact (reach_reset _ _ _ IH Hreset Hin).
  - exact (reach_update _ _ IH).
Qed.

Lemma in_play_example_pixels :
  in_play (instance 4 "pixels" (Some [16]) (2, 0, 3)).
Proof.
  assert (H0 : in_play (instance 4 "pixels" (Some [16]) (0, 0, 1))).
  { apply (play_init 4 None "pixels" _ _ eq_refl).
    vm_compute. apply list_elem_of_here. }
  pose proof (play_update _ 2 H0 eq_refl) as H1. rewrite update_snd_eval in H1.
  pose proof (play_update _ 2 H1 eq_refl) as H2. rewrite update_snd_eval in H2.
  exact H2.
Qed.

(** C5: what the code renders at the right wall.  The class docstring
    promises a 3 pixel basket, and the clamp floor 1 keeps all three cells
    on the grid at the left wall, but the clamp ceiling is grid_size-1, one
    column too far.  Two moves to the right after the reset on a grid of
    size 4 put the basket at column 3 = grid_size-1 while the fruit is still
    falling; there the slice is cut at the edge of the grid and the canvas
    shows the two cells of columns 2 and 3, not the contiguous 3-cell strip
    centred at the basket column. *)
Lemma basket_strip_cut_at_right_edge :
  let self := instance 4 "pixels" (Some [16]) (2, 0, 3) in
  let c := [[0; 0; 0; 0]; [0; 0; 0; 0]; [1; 0; 0; 0]; [0; 0; 1; 1]] in
  reachable self /\
  in_play self /\
  _draw_state self = (Ok c, self) /\
  cell c 3 4 = None /\
  ~ rendered_as_claimed 4 (2, 0, 3) c.
Proof.
  split; [ exact (in_play_reachable _ in_play_example_pixels) | ].
  split; [ exact in_play_example_pixels | ].
  split; [ reflexivity | ].
  split; [ reflexivity | ].
  intros (_ & Hstrip & _).
  specialize (Hstrip 4 ltac:(lia)). vm_compute in Hstrip. discriminate.
Qed.

(** Past the bottom row the rendering raises; [update] has no guard that
    keeps the fruit on the grid. *)
Lemma rendering_raises_past_bottom_row :
  let self := instance 4 "position" (Some [3]) (4, 0, 1) in
  reachable self /\
  _draw_state self = (Raise IndexError, self) /\
  observe_image self = (Raise IndexError, self).
Proof.
  split.
  - pose proof (reach_update _ 1 reachable_example_position) as H.
    rewrite update_snd_eval in H. exact H.
  - split; reflexivity.
Qed.


(** * Further properties of the class *)

(** ** Evaluating [observe] and [update] *)

Lemma observe_position_eval (g : Z) (sh : option (list Z)) (r : row) :
  observe (instance g "position" sh r) = (Ok (ObsPosition r), instance g "position" sh r).
Proof. reflexivity. Qed.

Lemma observe_pixels_eval (g : Z) (r : row) (c : canvas) :
  _draw_state (instance g "pixels" (Some [g * g]) r) =
    (Ok c, instance g "pixels" (Some [g * g]) r) ->
  Z.of_nat (length (concat c)) = g * g ->
  observe (instance g "pixels" (Some [g * g]) r) =
  (Ok (ObsPixels (mkArray [1; g * g] (concat c))), instance g "pixels" (Some [g * g]) r).
Proof.
  intros Hdraw Hsize. unfold observe.
  erewrite bind_Ok by reflexivity.
  cbn [output_type instance String.eqb Ascii.eqb Bool.eqb].
  erewrite bind_Ok.
  2:{ erewrite bind_Ok by exact Hdraw.
      erewrite bind_Ok by reflexivity.
      erewrite bind_Ok; [ reflexivity | ].
      apply reshape_Ok.
      - repeat constructor; nia.
      - rewrite Hsize. unfold product. simpl. lia. }
  reflexivity.
Qed.

(** When the new state can be observed, [update] returns that observation
    with the reward and the terminal flag of the new state. *)
Lemma update_eval (g : Z) (ty : string) (sh : option (list Z)) (r : row)
    (action : Z) (o : observation) :
  let self' := snd (update action (instance g ty sh r)) in
  observe self' = (Ok o, self') ->
  exists rew over,
    update action (instance g ty sh r) = (Ok (o, rew, over), self') /\
    reward self' = (Ok rew, self') /\
    is_over self' = (Ok over, self').
Proof.
  destruct r as [[f0 f1] b]. intros self' Hobs.
  unfold self' in *. rewrite update_snd_eval in *.
  eexists _, _. split; [ | split; [ apply reward_eval | apply is_over_eval ] ].
  unfold update.
  erewrite bind_Ok by apply update_state_eval.
  erewrite bind_Ok by apply reward_eval.
  erewrite bind_Ok by apply is_over_eval.
  erewrite bind_Ok by exact Hobs.
  reflexivity.
Qed.

(** ** Construction and configuration *)

(** X1: construction succeeds exactly on grids of size at least 4 (below
    that a draw range of [reset] is empty and ValueError is raised,
    whatever the other arguments).  Every instance it returns stores the
    given grid size and output type, has the default shape (grid_size^2,)
    for 'pixels' and (3,) for 'position' when no shape is given, and starts
    with the fruit in row 0, column within [0, grid_size-2], and the basket
    within [1, grid_size-3]. *)
Theorem construction_succeeds_iff_grid_at_least_4
    (g : Z) (oshape : option (list Z)) (otype : string) :
  (g < 4 -> __init__ g oshape otype = Raise ValueError) /\
  (4 <= g ->
   exists d, __init__ g oshape otype = Ok d /\ d <> [] /\
     forall self, self ∈ d ->
       grid_size self = g /\ output_type self = otype /\
       (oshape = None -> otype = "pixels"%string -> output_shape self = Some [g * g]) /\
       (oshape = None -> otype = "position"%string -> output_shape self = Some [3]) /\
       exists n m, _state self = Some [(0, n, m)] /\
                   0 <= n <= g - 2 /\ 1 <= m <= g - 3).
Proof.
  unfold __init__.
  match goal with |- context [mkCatcher g otype ?x None] => set (sh := x) end.
  set (self0 := mkCatcher g otype sh None).
  split; [ apply (reset_small_grid self0) | ].
  intros Hg. pose proof (reset_Ok self0 Hg) as Hreset.
  eexists. split; [ exact Hreset | ].
  split; [ exact (reset_nonempty _ _ Hreset) | ].
  intros self Hin. apply (elem_of_reset _ _ _ Hreset) in Hin.
  destruct Hin as (n & m & Hn & Hm & ->). cbn [grid_size self0] in Hn, Hm.
  split; [ reflexivity | ]. split; [ reflexivity | ].
  split; [ intros -> ->; reflexivity | ].
  split; [ intros -> ->; reflexivity | ].
  exists n, m. split; [ reflexivity | lia ].
Qed.

Lemma construction_succeeds_iff_grid_at_least_4_witness :
  __init__ 3 None "pixels" = Raise ValueError /\
  exists d, __init__ 4 None "pixels" = Ok d /\ d <> [] /\
    forall self, self ∈ d -> output_shape self = Some [4 * 4].
Proof.
  split.
  - apply (proj1 (construction_succeeds_iff_grid_at_least_4 3 None "pixels")). lia.
  - destruct (proj2 (construction_succeeds_iff_grid_at_least_4 4 None "pixels")
                ltac:(lia)) as (d & Hd & Hne & Hall).
    exists d. split; [ exact Hd | ]. split; [ exact Hne | ].
    intros self Hin. destruct (Hall self Hin) as (_ & _ & Hpix & _).
    apply Hpix; reflexivity.
Defined.

(** X2: the configuration is never changed after construction: [update]
    (whatever it returns or raises) and [reset] leave grid_size,
    output_type and output_shape as they were. *)
Theorem configuration_is_never_changed (self : Catcher) :
  (forall action,
     grid_size (snd (update action self)) = grid_size self /\
     output_type (snd (update action self)) = output_type self /\
     output_shape (snd (update action self)) = output_shape self) /\
  (forall d self', reset self = Ok d -> self' ∈ d ->
     grid_size self' = grid_size self /\
     output_type self' = output_type self /\
     output_shape self' = output_shape self).
Proof.
  split.
  - intros action. rewrite update_state_effect.
    unfold _update_state, bind, state.
    destruct (_state self) as [[|[[f0 f1] b] rest]|]; cbn;
      repeat split; reflexivity.
  - intros d self' Hreset Hin. apply (elem_of_reset _ _ _ Hreset) in Hin.
    destruct Hin as (n & m & _ & _ & ->). repeat split; reflexivity.
Qed.

Lemma configuration_is_never_changed_witness :
  grid_size (snd (update 2 (instance 5 "pixels" (Some [25]) (4, 1, 3)))) = 5 /\
  forall self', self' ∈ [instance 4 "position" (Some [3]) (0, 0, 1);
                          instance 4 "position" (Some [3]) (0, 1, 1);
                          instance 4 "position" (Some [3]) (0, 2, 1)] ->
    output_shape self' = Some [3].
Proof.
  split.
  - apply (proj1 (configuration_is_never_changed
                    (instance 5 "pixels" (Some [25]) (4, 1, 3))) 2).
  - intros self' Hin.
    apply (proj2 (configuration_is_never_changed
                    (instance 4 "position" (Some [3]) (3, 2, 3))) _ self' eq_refl Hin).
Defined.

(** X3: every instance reachable through construction, [reset] and
    [update] lives on a grid of size at least 4 and holds exactly one state
    row, with fruit_row >= 0, fruit_col within [0, grid_size-2] and basket
    within [1, grid_size-1]; on such an instance [reward] and [is_over]
    return without raising. *)
Theorem reachable_state_bounds (self : Catcher) :
  reachable self ->
  4 <= grid_size self /\
  exists f0 f1 b,
    _state self = Some [(f0, f1, b)] /\
    0 <= f0 /\ 0 <= f1 <= grid_size self - 2 /\ 1 <= b <= grid_size self - 1 /\
    (exists rew, reward self = (Ok rew, self)) /\
    (exists over, is_over self = (Ok over, self)).
Proof.
  intros Hreach.
  destruct (reachable_bounds self Hreach) as (f0 & f1 & b & Hself & Hg & Hf0 & Hf1 & Hb).
  split; [ exact Hg | ].
  exists f0, f1, b.
  split; [ rewrite Hself; reflexivity | ].
  split; [ exact Hf0 | ]. split; [ exact Hf1 | ]. split; [ exact Hb | ].
  split; rewrite Hself; eexists; [ apply reward_eval | apply is_over_eval ].
Qed.

Lemma reachable_state_bounds_witness :
  4 <= grid_size (instance 4 "position" (Some [3]) (3, 0, 1)) /\
  exists f0 f1 b,
    _state (instance 4 "position" (Some [3]) (3, 0, 1)) = Some [(f0, f1, b)] /\
    0 <= f0 /\ 0 <= f1 <= 4 - 2 /\ 1 <= b <= 4 - 1.
Proof.
  destruct (reachable_state_bounds _ reachable_example_position)
    as (Hg & f0 & f1 & b & Hst & Hf0 & Hf1 & Hb & _).
  split; [ exact Hg | ].
  exists f0, f1, b. split; [ exact Hst | ].
  split; [ exact Hf0 | ]. split; [ exact Hf1 | exact Hb ].
Defined.

(** ** What [update] returns *)

(** X4: in 'position' mode [update] never raises, on any state and for any
    action (also past the bottom row): it returns the new state row as the
    observation, together with the reward and the terminal flag that
    [reward] and [is_over] give on the new state. *)
Theorem position_update_never_raises (g : Z) (sh : option (list Z))
    (f0 f1 b action : Z) :
  let self := instance g "position" sh (f0, f1, b) in
  let self' := snd (update action self) in
  exists r' rew over,
    _state self' = Some [r'] /\
    update action self = (Ok (ObsPosition r', rew, over), self') /\
    reward self' = (Ok rew, self') /\
    is_over self' = (Ok over, self').
Proof.
  intros self self'.
  assert (Hself' : exists r', self' = instance g "position" sh r').
  { unfold self', self. rewrite update_snd_eval. eexists. reflexivity. }
  destruct Hself' as (r' & Hself').
  destruct (update_eval g "position" sh (f0, f1, b) action (ObsPosition r'))
    as (rew & over & Hu & Hr & Ho).
  { fold self. fold self'. rewrite Hself'. apply observe_position_eval. }
  exists r', rew, over.
  split; [ rewrite Hself'; reflexivity | ].
  split; [ exact Hu | ]. split; [ exact Hr | exact Ho ].
Qed.

(** X5: the basket moves by at most one column and stops at the walls: for
    a basket within [1, grid_size-1], action 1 leaves it where it is, action
    0 moves it one column left unless it is at column 1, and any other
    action moves it one column right unless it is at column grid_size-1. *)
Theorem basket_stops_at_walls (g : Z) (ty : string) (sh : option (list Z))
    (f0 f1 b action : Z) :
  1 <= b <= g - 1 ->
  exists b',
    _state (snd (update action (instance g ty sh (f0, f1, b)))) =
      Some [(f0 + 1, f1, b')] /\
    (action = 1 -> b' = b) /\
    (action = 0 -> b' = if decide (b = 1) then 1 else b - 1) /\
    (action <> 0 -> action <> 1 -> b' = if decide (b = g - 1) then g - 1 else b + 1) /\
    Z.abs (b' - b) <= 1.
Proof.
  intros Hb. rewrite update_snd_eval. eexists. split; [ reflexivity | ].
  destruct (Z.eqb_spec action 0) as [->|H0]; [ | destruct (Z.eqb_spec action 1) as [->|H1] ].
  - repeat split; intros; try case_decide; lia.
  - repeat split; intros; try case_decide; lia.
  - repeat split; intros; try case_decide; lia.
Qed.

Lemma basket_stops_at_walls_witness :
  exists b',
    _state (snd (update 2 (instance 5 "pixels" (Some [25]) (0, 2, 4)))) =
      Some [(0 + 1, 2, b')] /\
    Z.abs (b' - 4) <= 1.
Proof.
  destruct (basket_stops_at_walls 5 "pixels" (Some [25]) 0 2 4 2 ltac:(lia))
    as (b' & Hst & _ & _ & _ & Habs).
  exists b'. split; [ exact Hst | exact Habs ].
Defined.

(** ** Rendering at the edges of the grid *)

Lemma cell_off_grid (g : Z) (c : canvas) (i j : Z) :
  length c = Z.to_nat g ->
  (forall r, r ∈ c -> length r = Z.to_nat g) ->
  ~ (0 <= i < g /\ 0 <= j < g) ->
  cell c i j = None.
Proof.
  intros Hlen Hrows Hout. unfold cell.
  destruct (Z.leb_spec 0 i), (Z.leb_spec 0 j); cbn [andb]; try reflexivity.
  destruct (c !! Z.to_nat i) as [line|] eqn:Hline; [ | reflexivity ].
  cbn. apply lookup_ge_None.
  rewrite (Hrows line) by (apply list_elem_of_lookup; eauto).
  apply lookup_lt_Some in Hline. lia.
Qed.

Lemma cells_of_concat (g : Z) (c : canvas) (v : Z) :
  length c = Z.to_nat g ->
  (forall r, r ∈ c -> length r = Z.to_nat g) ->
  v ∈ concat c ->
  exists i j, 0 <= i < g /\ 0 <= j < g /\ cell c i j = Some v.
Proof.
  intros Hlen Hrows Hv.
  apply list_elem_of_In, in_concat in Hv. destruct Hv as (line & Hline & Hv).
  apply list_elem_of_In, list_elem_of_lookup in Hline, Hv.
  destruct Hline as (i & Hi), Hv as (j & Hj).
  pose proof (lookup_lt_Some _ _ _ Hi) as Hilt.
  pose proof (lookup_lt_Some _ _ _ Hj) as Hjlt.
  rewrite (Hrows line) in Hjlt by (apply list_elem_of_lookup; eauto).
  exists (Z.of_nat i), (Z.of_nat j).
  split; [ lia | ]. split; [ lia | ].
  unfold cell.
  destruct (Z.leb_spec 0 (Z.of_nat i)), (Z.leb_spec 0 (Z.of_nat j)); try lia.
  cbn [andb]. rewrite !Nat2Z.id, Hi. cbn. exact Hj.
Qed.

(** X6: the rendering clips the basket at the grid's edge.  For a fruit on
    the grid and any basket column >= 1, [_draw_state] returns a grid_size
    by grid_size canvas whose cell (i, j) is 1 exactly when it is the
    fruit's cell or lies on the bottom row within one column of the basket,
    and 0 otherwise; cells off the grid do not exist, so a basket at column
    grid_size-1 shows two cells.  A basket at column 0 (grid_size >= 3)
    would show no strip at all, the slice start -1 wrapping around. *)
Theorem rendering_clips_basket_at_edge (g : Z) (ty : string) (sh : option (list Z))
    (f0 f1 b : Z) :
  0 <= f0 <= g - 1 -> 0 <= f1 <= g - 1 ->
  exists c : canvas,
    _draw_state (instance g ty sh (f0, f1, b)) = (Ok c, instance g ty sh (f0, f1, b)) /\
    (forall i j, ~ (0 <= i < g /\ 0 <= j < g) -> cell c i j = None) /\
    (1 <= b ->
     forall i j, 0 <= i < g -> 0 <= j < g ->
       cell c i j =
       Some (if decide ((i = f0 /\ j = f1) \/ (i = g - 1 /\ Z.abs (j - b) <= 1))
             then 1 else 0)) /\
    (b = 0 -> 3 <= g ->
     forall i j, 0 <= i < g -> 0 <= j < g ->
       cell c i j = Some (if decide (i = f0 /\ j = f1) then 1 else 0)).
Proof.
  intros Hf0 Hf1.
  destruct (draw_state_cells g ty sh f0 f1 b ltac:(lia) ltac:(lia))
    as (c & Hdraw & Hlen & Hrows & Hcells).
  exists c. split; [ exact Hdraw | ].
  split; [ intros i j; apply cell_off_grid; assumption | ].
  split.
  - intros Hb i j Hi Hj. rewrite Hcells by assumption. f_equal.
    assert (Hlo : clip_bound g (b - 1) = Z.min (b - 1) g).
    { unfold clip_bound. destruct (Z.ltb_spec (b - 1) 0); lia. }
    assert (Hhi : clip_bound g (b + 2) = Z.min (b + 2) g).
    { unfold clip_bound. destruct (Z.ltb_spec (b + 2) 0); lia. }
    rewrite Hlo, Hhi. repeat case_decide; try reflexivity; exfalso; lia.
  - intros -> Hg i j Hi Hj. rewrite Hcells by assumption. f_equal.
    assert (Hlo : clip_bound g (0 - 1) = g - 1).
    { unfold clip_bound. destruct (Z.ltb_spec (0 - 1) 0); lia. }
    assert (Hhi : clip_bound g (0 + 2) = 2).
    { unfold clip_bound. destruct (Z.ltb_spec (0 + 2) 0); lia. }
    rewrite Hlo, Hhi. repeat case_decide; try reflexivity; exfalso; lia.
Qed.

Lemma rendering_clips_basket_at_edge_witness :
  exists c : canvas,
    _draw_state (instance 4 "pixels" (Some [16]) (2, 0, 3)) =
      (Ok c, instance 4 "pixels" (Some [16]) (2, 0, 3)) /\
    cell c 3 2 = Some 1 /\ cell c 3 3 = Some 1 /\ cell c 3 4 = None.
Proof.
  destruct (rendering_clips_basket_at_edge 4 "pixels" (Some [16]) 2 0 3
              ltac:(lia) ltac:(lia)) as (c & Hd & Hoff & Hon & _).
  exists c. split; [ exact Hd | ].
  split; [ rewrite (Hon ltac:(lia) 3 2) by lia; reflexivity | ].
  split; [ rewrite (Hon ltac:(lia) 3 3) by lia; reflexivity | ].
  apply Hoff. lia.
Defined.

(** X7: in 'pixels' mode with the default shape, [update] returns without
    raising whenever the fruit lands on the grid (new row within
    [0, grid_size-1], column within [0, grid_size-1]): the observation has
    shape (1, grid_size^2) and holds the grid_size^2 cells of the canvas of
    the new state, each 0 or 1, and the reward and the terminal flag are
    those of the new state. *)
Theorem pixel_update_returns_flat_canvas (g f0 f1 b action : Z) :
  -1 <= f0 <= g - 2 -> 0 <= f1 <= g - 1 ->
  let self := instance g "pixels" (Some [g * g]) (f0, f1, b) in
  let self' := snd (update action self) in
  exists c rew over,
    update action self = (Ok (ObsPixels (mkArray [1; g * g] (concat c)), rew, over), self') /\
    _draw_state self' = (Ok c, self') /\
    Z.of_nat (length (concat c)) = g * g /\
    Forall (fun v => v = 0 \/ v = 1) (concat c) /\
    reward self' = (Ok rew, self') /\
    is_over self' = (Ok over, self').
Proof.
  intros Hf0 Hf1 self self'.
  assert (Hself' : exists b', self' = instance g "pixels" (Some [g * g]) (f0 + 1, f1, b')).
  { unfold self', self. rewrite update_snd_eval. eexists. reflexivity. }
  destruct Hself' as (b' & Hself').
  destruct (draw_state_cells g "pixels" (Some [g * g]) (f0 + 1) f1 b'
              ltac:(lia) ltac:(lia)) as (c & Hdraw & Hlen & Hrows & Hcells).
  assert (Hsize : Z.of_nat (length (concat c)) = g * g).
  { rewrite (length_concat_square (Z.to_nat g) c Hrows), Hlen. lia. }
  destruct (update_eval g "pixels" (Some [g * g]) (f0, f1, b) action
              (ObsPixels (mkArray [1; g * g] (concat c))))
    as (rew & over & Hu & Hr & Ho).
  { fold self. fold self'. rewrite Hself'.
    apply observe_pixels_eval; [ exact Hdraw | exact Hsize ]. }
  exists c, rew, over.
  split; [ exact Hu | ].
  split; [ rewrite Hself'; exact Hdraw | ].
  split; [ exact Hsize | ].
  split; [ | split; [ exact Hr | exact Ho ] ].
  apply Forall_forall. intros v Hv.
  destruct (cells_of_concat g c v Hlen Hrows Hv) as (i & j & Hi & Hj & Hcell).
  rewrite Hcells in Hcell by assumption.
  injection Hcell as <-. case_decide; [ right | left ]; reflexivity.
Qed.

Lemma pixel_update_returns_flat_canvas_witness :
  exists c rew over,
    update 1 (instance 4 "pixels" (Some [4 * 4]) (2, 1, 2)) =
      (Ok (ObsPixels (mkArray [1; 4 * 4] (concat c)), rew, over),
       snd (update 1 (instance 4 "pixels" (Some [4 * 4]) (2, 1, 2)))) /\
    Z.of_nat (length (concat c)) = 4 * 4.
Proof.
  destruct (pixel_update_returns_flat_canvas 4 2 1 2 1 ltac:(lia) ltac:(lia))
    as (c & rew & over & Hu & _ & Hsize & _).
  exists c, rew, over. split; [ exact Hu | exact Hsize ].
Defined.

(** ** Episodes: sequences of [update] calls *)

Lemma after_cons (self : Catcher) (action : Z) (rest : list Z) :
  after self (action :: rest) = after (snd (update action self)) rest.
Proof. reflexivity. Qed.

Lemma after_instance (actions : list Z) :
  forall g ty sh f0 f1 b,
  exists b',
    after (instance g ty sh (f0, f1, b)) actions =
    instance g ty sh (f0 + Z.of_nat (length actions), f1, b').
Proof.
  induction actions as [|action rest IH]; intros g ty sh f0 f1 b.
  - exists b. cbn. rewrite Z.add_0_r. reflexivity.
  - rewrite after_cons, update_snd_eval.
    destruct (IH g ty sh (f0 + 1) f1
                (Z.min (Z.max 1 (b + (if action =? 0 then -1
                                      else if action =? 1 then 0 else 1))) (g - 1)))
      as (b' & Hb').
    exists b'. rewrite Hb'. cbn [length]. do 3 f_equal. lia.
Qed.

(** One [update] returns in 'position' mode, and in 'pixels' mode with the
    default shape when the fruit lands on the grid. *)
Lemma update_returns (g : Z) (ty : string) (sh : option (list Z)) (f0 f1 b action : Z) :
  ty = "position"%string \/
  (ty = "pixels"%string /\ sh = Some [g * g] /\
   -1 <= f0 <= g - 2 /\ 0 <= f1 <= g - 1) ->
  let self' := snd (update action (instance g ty sh (f0, f1, b))) in
  exists o rew over,
    update action (instance g ty sh (f0, f1, b)) = (Ok (o, rew, over), self') /\
    reward self' = (Ok rew, self') /\
    is_over self' = (Ok over, self').
Proof.
  intros Hmode self'.
  assert (Hobs : exists o, observe self' = (Ok o, self')).
  { unfold self'. rewrite update_snd_eval.
    destruct Hmode as [->|(-> & -> & Hf0 & Hf1)].
    - eexists. apply observe_position_eval.
    - match goal with |- context [instance g _ _ (?x, ?y, ?z)] =>
        destruct (draw_state_cells g "pixels" (Some [g * g]) x y z
                    ltac:(lia) ltac:(lia)) as (c & Hdraw & Hlen & Hrows & _)
      end.
      eexists. apply (observe_pixels_eval g _ c Hdraw).
      rewrite (length_concat_square (Z.to_nat g) c Hrows), Hlen. lia. }
  destruct Hobs as (o & Hobs).
  exists o. exact (update_eval g ty sh (f0, f1, b) action o Hobs).
Qed.

Lemma play_steps (actions : list Z) :
  forall g ty sh f0 f1 b,
  ty = "position"%string \/
  (ty = "pixels"%string /\ sh = Some [g * g] /\
   -1 <= f0 /\ f0 + Z.of_nat (length actions) <= g - 1 /\ 0 <= f1 <= g - 1) ->
  exists results,
    play actions (instance g ty sh (f0, f1, b)) =
      (Ok results, after (instance g ty sh (f0, f1, b)) actions) /\
    length results = length actions /\
    (forall i o r t, results !! i = Some (o, r, t) ->
       t = bool_decide (f0 + Z.of_nat i + 1 = g - 1) /\
       (t = false -> r = 0) /\ (t = true -> r = 1 \/ r = -1)) /\
    (actions <> [] ->
     exists o rew over,
       last results = Some (o, rew, over) /\
       reward (after (instance g ty sh (f0, f1, b)) actions) =
         (Ok rew, after (instance g ty sh (f0, f1, b)) actions) /\
       is_over (after (instance g ty sh (f0, f1, b)) actions) =
         (Ok over, after (instance g ty sh (f0, f1, b)) actions)).
Proof.
  induction actions as [|action rest IH]; intros g ty sh f0 f1 b Hmode.
  - exists []. split; [ reflexivity | ]. split; [ reflexivity | ].
    split; [ intros i o r t Hi; rewrite lookup_nil in Hi; discriminate | ].
    intros Hne. contradiction.
  - cbn [length] in Hmode.
    destruct (update_returns g ty sh f0 f1 b action) as (o & rew & over & Hu & Hr & Ho).
    { destruct Hmode as [?|(? & ? & ? & ? & ?)]; [ left; assumption | right ].
      repeat split; try assumption; lia. }
    rewrite after_cons.
    revert Hu Hr Ho. rewrite update_snd_eval. intros Hu Hr Ho.
    match goal with |- context [instance g ty sh (f0 + 1, f1, ?z)] => set (b1 := z) in * end.
    destruct (IH g ty sh (f0 + 1) f1 b1) as (results & Hplay & Hlen & Hidx & Hlast).
    { destruct Hmode as [?|(? & ? & ? & ? & ?)]; [ left; assumption | right ].
      repeat split; try assumption; lia. }
    exists ((o, rew, over) :: results).
    rewrite reward_eval in Hr. rewrite is_over_eval in Ho.
    injection Hr as Hr. injection Ho as Ho. subst rew over.
    split; [ | split; [ | split ] ].
    + cbn [play]. erewrite bind_Ok by exact Hu.
      erewrite bind_Ok by exact Hplay. reflexivity.
    + cbn [length]. rewrite Hlen. reflexivity.
    + intros [|i] o' r t Hi.
      * cbn in Hi. injection Hi as <- <- <-. rewrite Z.add_0_r.
        destruct (Z.eqb_spec (f0 + 1) (g - 1)) as [He|Hne].
        -- rewrite bool_decide_eq_true_2 by exact He.
           split; [ reflexivity | ]. split; [ discriminate | ].
           intros _. destruct (Z.abs (f1 - b1) <=? 1); [ left | right ]; reflexivity.
        -- rewrite bool_decide_eq_false_2 by exact Hne.
           split; [ reflexivity | ]. split; [ reflexivity | discriminate ].
      * cbn in Hi. destruct (Hidx i o' r t Hi) as (Ht & H0 & H1).
        split; [ | split; assumption ].
        rewrite Ht. apply bool_decide_ext. lia.
    + intros _. destruct rest as [|action' rest'].
      * destruct results; [ | discriminate ].
        eexists o, _, _. split; [ reflexivity | ].
        split; [ apply reward_eval | apply is_over_eval ].
      * destruct (Hlast ltac:(discriminate)) as (o' & rew' & over' & Hl & Hr' & Ho').
        exists o', rew', over'. split; [ | split; assumption ].
        destruct results; [ discriminate | exact Hl ].
Qed.

(** X8: an episode lasts exactly grid_size-1 updates.  From a state with
    the fruit in row 0 (as [reset] leaves it), a caller making grid_size-1
    [update] calls with any actions, in 'position' mode or in 'pixels' mode
    with the default shape, gets a result from every call; the first
    grid_size-2 results carry reward 0 and terminal flag False, the last one
    carries flag True and reward +1 or -1, and the fruit ends in row
    grid_size-1 of its original column. *)
Theorem episode_lasts_grid_size_minus_one_updates
    (g : Z) (ty : string) (sh : option (list Z)) (n m : Z) (actions : list Z) :
  ty = "position"%string \/
  (ty = "pixels"%string /\ sh = Some [g * g] /\ 0 <= n <= g - 1) ->
  Z.of_nat (length actions) = g - 1 ->
  exists results b',
    play actions (instance g ty sh (0, n, m)) =
      (Ok results, instance g ty sh (g - 1, n, b')) /\
    Z.of_nat (length results) = g - 1 /\
    forall i o r t, results !! i = Some (o, r, t) ->
      (Z.of_nat i < g - 2 -> t = false /\ r = 0) /\
      (Z.of_nat i = g - 2 -> t = true /\ (r = 1 \/ r = -1)).
Proof.
  intros Hmode Hlen.
  destruct (play_steps actions g ty sh 0 n m) as (results & Hplay & Hlenr & Hidx & _).
  { destruct Hmode as [?|(? & ? & ?)]; [ left; assumption | right ].
    repeat split; try assumption; lia. }
  destruct (after_instance actions g ty sh 0 n m) as (b' & Hafter).
  rewrite Hafter, Hlen in Hplay.
  exists results, b'. split; [ exact Hplay | ].
  split; [ rewrite Hlenr; exact Hlen | ].
  intros i o r t Hi. destruct (Hidx i o r t Hi) as (Ht & H0 & H1).
  split.
  - intros Hlt. rewrite bool_decide_eq_false_2 in Ht by lia. auto.
  - intros Heq. rewrite bool_decide_eq_true_2 in Ht by lia. auto.
Qed.

Lemma episode_lasts_grid_size_minus_one_updates_witness :
  exists results b',
    play [2; 0; 1] (instance 4 "pixels" (Some [4 * 4]) (0, 2, 1)) =
      (Ok results, instance 4 "pixels" (Some [4 * 4]) (4 - 1, 2, b')) /\
    Z.of_nat (length results) = 4 - 1.
Proof.
  destruct (episode_lasts_grid_size_minus_one_updates
              4 "pixels" (Some [4 * 4]) 2 1 [2; 0; 1]) as (results & b' & Hp & Hl & _).
  - right. split; [ reflexivity | ]. split; [ reflexivity | lia ].
  - reflexivity.
  - exists results, b'. split; [ exact Hp | exact Hl ].
Defined.

(** X9: past the bottom row nothing ends the episode again.  In 'position'
    mode, from a state with fruit_row >= grid_size-1, every further
    [update] returns reward 0 and terminal flag False, for any actions;
    only [reset] starts a new episode. *)
Theorem no_termination_after_bottom_row
    (g : Z) (sh : option (list Z)) (f0 f1 b : Z) (actions : list Z) :
  g - 1 <= f0 ->
  exists results,
    play actions (instance g "position" sh (f0, f1, b)) =
      (Ok results, after (instance g "position" sh (f0, f1, b)) actions) /\
    length results = length actions /\
    forall i o r t, results !! i = Some (o, r, t) -> t = false /\ r = 0.
Proof.
  intros Hf0.
  destruct (play_steps actions g "position" sh f0 f1 b ltac:(left; reflexivity))
    as (results & Hplay & Hlen & Hidx & _).
  exists results. split; [ exact Hplay | ]. split; [ exact Hlen | ].
  intros i o r t Hi. destruct (Hidx i o r t Hi) as (Ht & H0 & _).
  rewrite bool_decide_eq_false_2 in Ht by lia. auto.
Qed.

Lemma no_termination_after_bottom_row_witness :
  exists results,
    play [1; 2] (instance 4 "position" (Some [3]) (3, 0, 1)) =
      (Ok results, after (instance 4 "position" (Some [3]) (3, 0, 1)) [1; 2]) /\
    forall i o r t, results !! i = Some (o, r, t) -> t = false /\ r = 0.
Proof.
  destruct (no_termination_after_bottom_row 4 (Some [3]) 3 0 1 [1; 2] ltac:(lia))
    as (results & Hp & _ & Hall).
  exists results. split; [ exact Hp | exact Hall ].
Defined.

Lemma length_chase_actions (k : nat) :
  forall self, length (chase_actions k self) = k.
Proof.
  induction k as [|k IH]; intros self; [ reflexivity | ].
  cbn [chase_actions length]. rewrite IH. reflexivity.
Qed.

Lemma chase_closes_gap (k : nat) :
  forall g ty sh f0 f1 b,
  0 <= f1 <= g - 2 -> 1 <= b <= g - 1 ->
  exists b',
    after (instance g ty sh (f0, f1, b)) (chase_actions k (instance g ty sh (f0, f1, b))) =
      instance g ty sh (f0 + Z.of_nat k, f1, b') /\
    1 <= b' <= g - 1 /\
    Z.abs (f1 - b') <= Z.max 1 (Z.abs (f1 - b) - Z.of_nat k).
Proof.
  induction k as [|k IH]; intros g ty sh f0 f1 b Hf1 Hb.
  - exists b. split; [ cbn; rewrite Z.add_0_r; reflexivity | lia ].
  - cbn [chase_actions]. rewrite after_cons.
    assert (Ha : chase (instance g ty sh (f0, f1, b)) =
                 if b <? f1 then 2 else if f1 <? b then 0 else 1) by reflexivity.
    rewrite update_snd_eval, Ha.
    set (b1 := Z.min (Z.max 1 (b + _)) (g - 1)).
    assert (Hb1 : 1 <= b1 <= g - 1 /\ Z.abs (f1 - b1) <= Z.max 1 (Z.abs (f1 - b) - 1)).
    { unfold b1. destruct (Z.ltb_spec b f1); [ | destruct (Z.ltb_spec f1 b) ];
        cbn [Z.eqb Pos.eqb]; lia. }
    destruct (IH g ty sh (f0 + 1) f1 b1 Hf1 (proj1 Hb1)) as (b' & Hafter & Hb' & Hgap).
    exists b'. split; [ | split; [ exact Hb' | lia ] ].
    rewrite Hafter. do 3 f_equal. lia.
Qed.

(** X10: every episode can be won.  From any state that [reset] produces
    (grid_size >= 4, fruit in row 0 and column within [0, grid_size-2],
    basket within [1, grid_size-3]), the grid_size-1 actions of an agent
    that always moves the basket toward the fruit's column end the episode
    with reward +1. *)
Theorem every_episode_can_be_won
    (g : Z) (ty : string) (sh : option (list Z)) (n m : Z) :
  ty = "position"%string \/ (ty = "pixels"%string /\ sh = Some [g * g]) ->
  4 <= g -> 0 <= n <= g - 2 -> 1 <= m <= g - 3 ->
  let self := instance g ty sh (0, n, m) in
  let actions := chase_actions (Z.to_nat (g - 1)) self in
  exists results o,
    play actions self = (Ok results, after self actions) /\
    Z.of_nat (length results) = g - 1 /\
    last results = Some (o, 1, true).
Proof.
  intros Hmode Hg Hn Hm self actions.
  assert (Hlen : length actions = Z.to_nat (g - 1)) by apply length_chase_actions.
  destruct (play_steps actions g ty sh 0 n m) as (results & Hplay & Hlenr & _ & Hlast).
  { destruct Hmode as [?|(? & ?)]; [ left; assumption | right ].
    repeat split; try assumption; lia. }
  destruct Hlast as (o & rew & over & Hl & Hr & Ho).
  { intros Hnil. rewrite Hnil in Hlen. cbn in Hlen. lia. }
  destruct (chase_closes_gap (Z.to_nat (g - 1)) g ty sh 0 n m ltac:(lia) ltac:(lia))
    as (b' & Hafter & Hb' & Hgap).
  fold self in Hafter, Hplay, Hr, Ho. fold actions in Hafter.
  rewrite Hafter in Hr, Ho. rewrite reward_eval in Hr. rewrite is_over_eval in Ho.
  injection Hr as Hr. injection Ho as Ho.
  replace (0 + Z.of_nat (Z.to_nat (g - 1))) with (g - 1) in Hr, Ho by lia.
  rewrite Z.eqb_refl in Hr, Ho.
  destruct (Z.leb_spec (Z.abs (n - b')) 1) as [_|Hfar]; [ | lia ].
  subst rew over.
  exists results, o. split; [ exact Hplay | ].
  split; [ rewrite Hlenr, Hlen; lia | exact Hl ].
Qed.

Lemma every_episode_can_be_won_witness :
  exists results o,
    play (chase_actions (Z.to_nat (5 - 1)) (instance 5 "position" (Some [3]) (0, 3, 1)))
         (instance 5 "position" (Some [3]) (0, 3, 1)) =
      (Ok results,
       after (instance 5 "position" (Some [3]) (0, 3, 1))
             (chase_actions (Z.to_nat (5 - 1)) (instance 5 "position" (Some [3]) (0, 3, 1)))) /\
    last results = Some (o, 1, true).
Proof.
  destruct (every_episode_can_be_won 5 "position" (Some [3]) 3 1)
    as (results & o & Hp & _ & Hl);
    [ left; reflexivity | lia | lia | lia | ].
  exists results, o. split; [ exact Hp | exact Hl ].
Defined.

(** ** The description *)

(** X11: [description] never raises and never changes the instance, and it
    identifies the grid size: two instances have the same description only
    if they have the same grid size. *)
Theorem description_identifies_grid_size (self1 self2 : Catcher) :
  (exists s, description self1 = (Ok s, self1)) /\
  (fst (description self1) = fst (description self2) ->
   grid_size self1 = grid_size self2).
Proof.
  split; [ eexists; reflexivity | ].
  unfold description, bind, get_grid_size, ret. cbn [fst].
  intros H. injection H as H.
  apply (inj (String.app _)) in H. apply (inj pretty) in H. exact H.
Qed.

Lemma description_identifies_grid_size_witness :
  grid_size (instance 10 "pixels" (Some [100]) (0, 3, 4)) =
  grid_size (instance 10 "position" (Some [3]) (5, 1, 2)).
Proof.
  apply (proj2 (description_identifies_grid_size
                  (instance 10 "pixels" (Some [100]) (0, 3, 4))
                  (instance 10 "position" (Some [3]) (5, 1, 2)))).
  reflexivity.
Defined.
